(** * tools/performance_plotter.py: parser, aggregator, renderer and driver

    A shallow embedding of the pidstat report generator.  Python strings are
    sequences of Unicode code points, dictionaries are finite maps, floats
    are IEEE-754 binary64 values (the executable specification of the
    Standard Library, [SpecFloat], at precision 53), exceptions are an
    explicit result type and the effects of [main] (the child process, the
    report file and the standard output) are passed around explicitly, each
    with the errors that the operating system can answer with. *)

From Stdlib Require Import ZArith NArith Ascii String List Bool Lia.
From Stdlib Require Import Floats.SpecFloat.
From stdpp Require Import base option list gmap strings fin_maps pretty.

Local Open Scope N_scope.

(** ** Python [str] *)

(** A [str] is a list of code points. *)
Abbreviation str := (list N).

(** The code points of an ASCII literal of the source. *)
Definition lit (s : string) : str :=
  (fun a => N_of_ascii a) <$> list_ascii_of_string s.

(** [str.isspace] on one code point: the table behind [str.strip] and
    [str.split] without argument. *)
Definition isspace (c : N) : bool :=
  ((9 <=? c) && (c <=? 13)) || ((28 <=? c) && (c <=? 31)) || (c =? 32)
  || (c =? 0x85) || (c =? 0xA0) || (c =? 0x1680)
  || ((0x2000 <=? c) && (c <=? 0x200A))
  || (c =? 0x2028) || (c =? 0x2029) || (c =? 0x202F) || (c =? 0x205F)
  || (c =? 0x3000).

(** The line boundaries of [str.splitlines]. *)
Definition is_linebreak (c : N) : bool :=
  ((10 <=? c) && (c <=? 13)) || ((28 <=? c) && (c <=? 30))
  || (c =? 0x85) || (c =? 0x2028) || (c =? 0x2029).

(** [str.splitlines()]: [cur] is the line being read; a carriage return
    directly followed by a line feed is one boundary; no empty line is
    reported after the last boundary. *)
Fixpoint splitlines_from (cur s : str) : list str :=
  match s with
  | [] => match cur with [] => [] | _ => [cur] end
  | c :: s' =>
      if is_linebreak c then
        match s' with
        | c' :: s'' =>
            if (c =? 13) && (c' =? 10) then cur :: splitlines_from [] s''
            else cur :: splitlines_from [] s'
        | [] => cur :: splitlines_from [] s'
        end
      else splitlines_from (cur ++ [c]) s'
  end.

Definition splitlines (s : str) : list str := splitlines_from [] s.

Fixpoint lstrip (s : str) : str :=
  match s with
  | c :: s' => if isspace c then lstrip s' else s
  | [] => []
  end.

Definition rstrip (s : str) : str := rev (lstrip (rev s)).

(** [str.strip()] *)
Definition strip (s : str) : str := rstrip (lstrip s).

(** [str.split()] without argument: the maximal runs of non-space code
    points; [cur] is the token being read. *)
Fixpoint split_from (cur s : str) : list str :=
  match s with
  | [] => match cur with [] => [] | _ => [cur] end
  | c :: s' =>
      if isspace c then
        match cur with
        | [] => split_from [] s'
        | _ => cur :: split_from [] s'
        end
      else split_from (cur ++ [c]) s'
  end.

Definition split (s : str) : list str := split_from [] s.

(** [s.startswith(p)] *)
Fixpoint startswith (s p : str) {struct p} : bool :=
  match p with
  | [] => true
  | a :: p' =>
      match s with
      | b :: s' => (a =? b) && startswith s' p'
      | [] => false
      end
  end.

(** [s.startswith((p1, ..., pn))] *)
Definition startswith_any (s : str) (ps : list str) : bool :=
  existsb (startswith s) ps.


(** ** Records *)

(** A record of the parser is a [dict] from column names to tokens. *)
Abbreviation row := (gmap (list N) (list N)).

(** [dict(pairs)]: later pairs overwrite earlier ones. *)
Definition dict (kvs : list (str * str)) : row :=
  foldl (fun m kv => <[kv.1 := kv.2]> m) ∅ kvs.

Definition TABLE_COLUMNS : list str :=
  lit <$>
  [ "time"; "uid"; "pid"; "usr_pct"; "system_pct"; "guest_pct"; "cpu_pct";
    "cpu"; "minflt_s"; "majflt_s"; "vsz"; "rss"; "mem_pct"; "kb_rd_s";
    "kb_wr_s"; "kb_ccwr_s"; "iodelay" ]%string.

(** The line prefixes that [parse_pidstat_output] skips. *)
Definition MARKERS : list str := [lit "Linux"; lit "#"; lit "Average:"].

(** ** parse_pidstat_output *)

(** One turn of the loop over the lines: [rows] is the list built so far. *)
Definition parse_line (rows : list row) (line : str) : list row :=
  let stripped := strip line in
  if bool_decide (stripped = []) || startswith_any stripped MARKERS then rows
  else
    let parts := split stripped in
    if (length parts <? length TABLE_COLUMNS)%nat then rows
    else rows ++ [dict (zip TABLE_COLUMNS parts)].

Definition parse_pidstat_output (stdout : str) : list row :=
  foldl parse_line [] (splitlines stdout).

(** ** Exceptions *)

Inductive exn : Type :=
  | KeyError (key : str)
  | ValueError (arg : str)
  | CalledProcessError (returncode : Z) (cmd : list str)
  | SystemExit (msg : str)
  | UnicodeEncodeError (object : str)
  | UnicodeDecodeError
  | OSError (errno : Z).

Inductive result (A : Type) : Type :=
  | Ok (a : A)
  | Raise (e : exn).
Arguments Ok {A} a.
Arguments Raise {A} e.

#[global] Instance exn_eq_dec : EqDecision exn.
Proof. solve_decision. Defined.

#[global] Instance result_eq_dec `{EqDecision A} : EqDecision (result A).
Proof. solve_decision. Defined.

(** Sequencing: the first exception ends the computation (written
    [x ← c; k] below). *)
#[global] Instance result_ret : MRet result := fun A a => Ok a.
#[global] Instance result_bind : MBind result := fun A B f x =>
  match x with
  | Ok a => f a
  | Raise e => Raise e
  end.

(** [d[key]] on a dictionary. *)
Definition getitem {V} (d : gmap (list N) V) (key : str) : result V :=
  match d !! key with
  | Some v => Ok v
  | None => Raise (KeyError key)
  end.

(** A comprehension [[f(x) for x in l]] whose body can raise. *)
Fixpoint for_each {A B} (f : A -> result B) (l : list A) : result (list B) :=
  match l with
  | [] => Ok []
  | x :: l' => y ← f x; ys ← for_each f l'; Ok (y :: ys)
  end.

(** A [for] loop over [l] whose body updates the state [st] and can
    raise. *)
Fixpoint for_loop {S A} (body : S -> A -> result S) (st : S) (l : list A)
  : result S :=
  match l with
  | [] => Ok st
  | x :: l' => st' ← body st x; for_loop body st' l'
  end.

(** [sep.join(l)] *)
Fixpoint join (sep : str) (l : list str) : str :=
  match l with
  | [] => []
  | [x] => x
  | x :: l' => x ++ sep ++ join sep l'
  end.

Definition nl : str := [10].

(** The double quote. *)
Definition dq : str := [34].

(** [str(n)] for an integer. *)
Definition str_of_int (n : Z) : str := lit (pretty n).

(** ** html.escape and json.dumps *)

(** [s.replace(old, new)] for a pattern [old] of one code point. *)
Definition replace_char (old : N) (new : str) (s : str) : str :=
  flat_map (fun x => if x =? old then new else [x]) s.

(** [html.escape(s)], with its default [quote=True]: five replacements,
    the ampersand first. *)
Definition html_escape (s : str) : str :=
  let s := replace_char 38 (lit "&amp;") s in
  let s := replace_char 60 (lit "&lt;") s in
  let s := replace_char 62 (lit "&gt;") s in
  let s := replace_char 34 (lit "&quot;") s in
  replace_char 39 (lit "&#x27;") s.

(** What escaping makes of one code point: the entity of an ampersand, an
    angle bracket or a quote, and any other code point itself. *)
Definition entity (c : N) : str :=
  if c =? 38 then lit "&amp;"
  else if c =? 60 then lit "&lt;"
  else if c =? 62 then lit "&gt;"
  else if c =? 34 then lit "&quot;"
  else if c =? 39 then lit "&#x27;"
  else [c].


(** The five entities read back, each as its code point: the inverse that
    shows that escaping loses nothing. *)
Fixpoint unescape_entities (s : str) : str :=
  match s with
  | 38 :: 97 :: 109 :: 112 :: 59 :: r => 38 :: unescape_entities r
  | 38 :: 108 :: 116 :: 59 :: r => 60 :: unescape_entities r
  | 38 :: 103 :: 116 :: 59 :: r => 62 :: unescape_entities r
  | 38 :: 113 :: 117 :: 111 :: 116 :: 59 :: r => 34 :: unescape_entities r
  | 38 :: 35 :: 120 :: 50 :: 55 :: 59 :: r => 39 :: unescape_entities r
  | c :: r => c :: unescape_entities r
  | [] => []
  end.

(** The code points that are printed as they are: the printable part of
    ASCII. *)
Definition printable (c : N) : Prop := 32 <= c /\ c <= 126.

(** The backslash. *)
Definition bs : str := [92].

Definition hex_digit (n : N) : N := if n <? 10 then 48 + n else 87 + n.

(** Four lower-case hexadecimal digits. *)
Definition hex4 (n : N) : str :=
  [ hex_digit (n / 4096 mod 16); hex_digit (n / 256 mod 16);
    hex_digit (n / 16 mod 16); hex_digit (n mod 16) ].

(** One code point inside a JSON string, with [ensure_ascii] on. *)
Definition json_char (c : N) : str :=
  if c =? 34 then bs ++ dq
  else if c =? 92 then bs ++ bs
  else if c =? 10 then bs ++ lit "n"
  else if c =? 13 then bs ++ lit "r"
  else if c =? 9 then bs ++ lit "t"
  else if c =? 8 then bs ++ lit "b"
  else if c =? 12 then bs ++ lit "f"
  else if (32 <=? c) && (c <=? 126) then [c]
  else if 0x10000 <=? c then
    let v := c - 0x10000 in
    bs ++ lit "u" ++ hex4 (0xD800 + v / 1024 mod 1024)
    ++ bs ++ lit "u" ++ hex4 (0xDC00 + v mod 1024)
  else bs ++ lit "u" ++ hex4 c.

Definition json_str (s : str) : str := dq ++ flat_map json_char s ++ dq.

Definition json_list (items : list str) : str :=
  lit "[" ++ join (lit ", ") items ++ lit "]".

(** ** Reading a literal back *)

(** The arrays of a literal are read back by going through its text once.
    The state of the reader: whether it is inside a string, whether the
    last code point was the backslash of an escape, whether it is inside an
    array, the text of the item and the items read so far in this array,
    and the arrays that are complete. *)
Record reader : Type := Reader {
  in_string : bool;
  escaped : bool;
  in_array : bool;
  item : str;
  items : list str;
  arrays : list (list str)
}.

Definition reader_start : reader := Reader false false false [] [] [].

(** The item with one more code point; outside arrays nothing is kept. *)
Definition keep (st : reader) (c : N) : str :=
  if in_array st then item st ++ [c] else item st.

(** White space between the tokens of a literal. *)
Definition is_json_space (c : N) : bool :=
  (c =? 32) || (c =? 9) || (c =? 10) || (c =? 13).

(** One code point.  Inside a string only an unescaped double quote ends
    the string.  Outside strings a bracket opens an array (arrays inside
    arrays are not read), a comma ends an item, a closing bracket ends the
    last item and the array, and white space is skipped.  An item without
    text is refused, except for the array without items. *)
Definition read_char (st : reader) (c : N) : option reader :=
  if in_string st then
    if escaped st then
      Some (Reader true false (in_array st) (keep st c) (items st) (arrays st))
    else if c =? 92 then
      Some (Reader true true (in_array st) (keep st c) (items st) (arrays st))
    else if c =? 34 then
      Some (Reader false false (in_array st) (keep st c) (items st) (arrays st))
    else
      Some (Reader true false (in_array st) (keep st c) (items st) (arrays st))
  else if c =? 34 then
    Some (Reader true false (in_array st) (keep st c) (items st) (arrays st))
  else if c =? 91 then
    if in_array st then None
    else Some (Reader false false true [] [] (arrays st))
  else if c =? 93 then
    if in_array st then
      match item st, items st with
      | [], [] => Some (Reader false false false [] [] (arrays st ++ [[]]))
      | [], _ :: _ => None
      | _ :: _, _ =>
          Some (Reader false false false [] [] (arrays st ++ [items st ++ [item st]]))
      end
    else None
  else if c =? 44 then
    if in_array st then
      match item st with
      | [] => None
      | _ :: _ => Some (Reader false false true [] (items st ++ [item st]) (arrays st))
      end
    else Some st
  else if is_json_space c then Some st
  else Some (Reader false false (in_array st) (keep st c) (items st) (arrays st)).

Fixpoint read_from (st : reader) (s : str) : option reader :=
  match s with
  | [] => Some st
  | c :: s' =>
      match read_char st c with
      | Some st' => read_from st' s'
      | None => None
      end
  end.

(** The arrays of a literal, each as the list of the texts of its items. *)
Definition read_arrays (s : str) : option (list (list str)) :=
  match read_from reader_start s with
  | Some st => if in_string st || in_array st then None else Some (arrays st)
  | None => None
  end.

Definition is_letter (c : N) : bool :=
  ((65 <=? c) && (c <=? 90)) || ((97 <=? c) && (c <=? 122)).

(** The code points of a number in the literal: digits, a sign, a point,
    and the letters of an exponent, of NaN and of Infinity. *)
Definition number_char (c : N) : bool :=
  ((48 <=? c) && (c <=? 57)) || is_letter c || (c =? 43) || (c =? 45) || (c =? 46).

Definition number_text (t : str) : bool :=
  match t with
  | [] => false
  | _ :: _ => forallb number_char t
  end.

(** The items of the arrays of the chart data: strings and numbers. *)
Definition item_text (t : str) : Prop :=
  (exists s, t = json_str s) \/ number_text t = true.

(** ** The text of the report around its holes *)

Definition tpl_open : str :=
  join nl
    [ [];
      lit "<!DOCTYPE html>";
      lit "<html lang=" ++ dq ++ lit "en" ++ dq ++ lit ">";
      lit "<head>";
      lit "    <meta charset=" ++ dq ++ lit "UTF-8" ++ dq ++ lit " />";
      lit "    <meta name=" ++ dq ++ lit "viewport" ++ dq ++ lit " content=" ++ dq ++ lit "width=device-width, initial-scale=1.0" ++ dq ++ lit " />";
      lit "    <title>" ].

Definition tpl_head : str :=
  join nl
    [ lit "</title>";
      lit "    <script src=" ++ dq ++ lit "https://cdn.jsdelivr.net/npm/chart.js" ++ dq ++ lit "></script>";
      lit "    <style>";
      lit "        body { font-family: Arial, sans-serif; margin: 1.5rem; }";
      lit "        h1, h2 { margin-bottom: 0.2rem; }";
      lit "        table { border-collapse: collapse; margin-top: 1rem; width: 100%; max-width: 640px; }";
      lit "        th, td { border: 1px solid #ddd; padding: 0.4rem 0.6rem; text-align: right; }";
      lit "        th { background: #f3f3f3; }";
      lit "        pre { background: #f8f8f8; padding: 1rem; overflow: auto; }";
      lit "        .chart-container { max-width: 960px; }";
      lit "    </style>";
      lit "</head>";
      lit "<body>";
      lit "    <h1>" ].

Definition tpl_intro : str :=
  join nl
    [ lit "</h1>";
      lit "    <p>" ].

Definition tpl_every : str := lit " sampled every ".

Definition tpl_for : str := lit "s for ".

Definition tpl_table : str :=
  join nl
    [ lit " cycles.</p>";
      [];
      lit "    <div class=" ++ dq ++ lit "chart-container" ++ dq ++ lit "> <canvas id=" ++ dq ++ lit "cpuChart" ++ dq ++ lit "></canvas> </div>";
      lit "    <div class=" ++ dq ++ lit "chart-container" ++ dq ++ lit "> <canvas id=" ++ dq ++ lit "memChart" ++ dq ++ lit "></canvas> </div>";
      [];
      lit "    <h2>Samples</h2>";
      lit "    <table aria-label=" ++ dq ++ lit "pidstat samples" ++ dq ++ lit ">";
      lit "        <thead>";
      lit "            <tr><th scope=" ++ dq ++ lit "col" ++ dq ++ lit ">Time</th><th scope=" ++ dq ++ lit "col" ++ dq ++ lit ">PID</th><th scope=" ++ dq ++ lit "col" ++ dq ++ lit ">CPU %</th><th scope=" ++ dq ++ lit "col" ++ dq ++ lit ">Memory %</th></tr>";
      lit "        </thead>";
      lit "        <tbody>";
      lit "            " ].

Definition tpl_pre : str :=
  join nl
    [ [];
      lit "        </tbody>";
      lit "    </table>";
      [];
      lit "    <h2>pidstat output</h2>";
      lit "    <pre>" ].

Definition tpl_script : str :=
  join nl
    [ lit "</pre>";
      [];
      lit "    <script>";
      lit "        const data = " ].

Definition tpl_close : str :=
  join nl
    [ lit ";";
      lit "        const cpuCtx = document.getElementById('cpuChart');";
      lit "        new Chart(cpuCtx, {";
      lit "            type: 'line',";
      lit "            data: {";
      lit "                labels: data.labels,";
      lit "                datasets: [{";
      lit "                    label: 'CPU %',";
      lit "                    data: data.cpu,";
      lit "                    fill: false,";
      lit "                    borderColor: '#2563eb',";
      lit "                    tension: 0.2";
      lit "                }]";
      lit "            },";
      lit "            options: {";
      lit "                responsive: true,";
      lit "                plugins: {";
      lit "                    legend: { position: 'top' }";
      lit "                },";
      lit "                scales: {";
      lit "                    y: { beginAtZero: true, title: { display: true, text: 'CPU %' } },";
      lit "                    x: { title: { display: true, text: 'Time' } }";
      lit "                }";
      lit "            }";
      lit "        });";
      [];
      lit "        const memCtx = document.getElementById('memChart');";
      lit "        new Chart(memCtx, {";
      lit "            type: 'line',";
      lit "            data: {";
      lit "                labels: data.labels,";
      lit "                datasets: [{";
      lit "                    label: 'Memory %',";
      lit "                    data: data.mem,";
      lit "                    fill: false,";
      lit "                    borderColor: '#16a34a',";
      lit "                    tension: 0.2";
      lit "                }]";
      lit "            },";
      lit "            options: {";
      lit "                responsive: true,";
      lit "                plugins: {";
      lit "                    legend: { position: 'top' }";
      lit "                },";
      lit "                scales: {";
      lit "                    y: { beginAtZero: true, title: { display: true, text: 'Memory %' } },";
      lit "                    x: { title: { display: true, text: 'Time' } }";
      lit "                }";
      lit "            }";
      lit "        });";
      lit "    </script>";
      lit "</body>";
      lit "</html>";
      [] ].

(** ** Floats *)

Abbreviation float := spec_float.

#[global] Instance float_eq_dec : EqDecision spec_float.
Proof. solve_decision. Defined.

Definition fadd : float -> float -> float := SFadd 53 1024.

(** The literal [0.0]. *)
Definition fzero : float := S754_zero false.

Definition is_digit (c : N) : bool := (48 <=? c) && (c <=? 57).

(** The C locale's [isspace], as [Py_ISSPACE]. *)
Definition is_c_space (c : N) : bool := ((9 <=? c) && (c <=? 13)) || (c =? 32).

(** ASCII lower case, as [Py_TOLOWER]. *)
Definition tolower (c : N) : N := if (65 <=? c) && (c <=? 90) then c + 32 else c.

Fixpoint span_digits (s : str) : str * str :=
  match s with
  | c :: s' =>
      if is_digit c then let '(ds, r) := span_digits s' in (c :: ds, r)
      else ([], s)
  | [] => ([], [])
  end.

Definition digits_value (ds : str) : Z :=
  foldl (fun a c => (10 * a + (Z.of_N c - 48))%Z) 0%Z ds.

Fixpoint drop_zeros (s : str) : str :=
  match s with
  | 48 :: s' => drop_zeros s'
  | _ => s
  end.

(** An optional sign: whether it is a minus, and the rest. *)
Definition take_sign (s : str) : bool * str :=
  match s with
  | 45 :: t => (true, t)
  | 43 :: t => (false, t)
  | _ => (false, s)
  end.

(** The decimal [(-1)^sign * m * 10^e], rounded to the nearest binary64,
    ties to even; beyond the largest float an infinity, below the smallest
    a zero of the same sign.  A quotient is computed with 64 bits more than
    the divisor has, and its remainder decides the rounding. *)
Definition float_of_decimal (sign : bool) (m e : Z) : float :=
  match m with
  | Zpos p =>
      match e with
      | Zneg k =>
          let d := Z.pow 10 (Zpos k) in
          let s := (64 + Z.log2_up d)%Z in
          let '(q, r) := Z.div_eucl (Z.shiftl m s) d in
          binary_round_aux 53 1024 sign q (- s) (new_location d r)
      | _ => binary_round 53 1024 sign (p * Z.to_pos (Z.pow 10 e)) 0
      end
  | _ => S754_zero sign
  end.

(** [strtod] refuses a number with more digits than this. *)
Definition MAX_DIGITS : N := 1000000000.

(** [strtod] as CPython uses it: digits with an optional point, at least
    one digit, and an exponent that is read only when it has a digit.  The
    whole text has to be read. *)
Definition parse_decimal (s : str) : option float :=
  let '(sign, s1) := take_sign s in
  let '(ip, s2) := span_digits s1 in
  let '(fp, s3) := match s2 with
                   | 46 :: t => span_digits t
                   | _ => ([], s2)
                   end in
  match ip ++ fp with
  | [] => None
  | ds =>
      let '(e, s4) :=
        match s3 with
        | c :: t =>
            if (c =? 101) || (c =? 69) then
              let '(esign, t1) := take_sign t in
              let '(ed, t2) := span_digits t1 in
              match ed with
              | [] => (0%Z, s3)
              | _ => ((if esign then - digits_value ed else digits_value ed)%Z, t2)
              end
            else (0%Z, s3)
        | [] => (0%Z, s3)
        end in
      match s4 with
      | [] =>
          let ndigits := match drop_zeros ip with
                         | [] => length (drop_zeros fp)
                         | ip' => length (ip' ++ fp)
                         end in
          if (MAX_DIGITS <? N.of_nat ndigits) || (MAX_DIGITS <? N.of_nat (length fp))
          then None
          else Some (float_of_decimal sign (digits_value ds) (e - Z.of_nat (length fp)))
      | _ => None
      end
  end.

(** The spellings of infinity and not-a-number, in any case. *)
Definition parse_inf_or_nan (s : str) : option float :=
  let '(sign, s1) := take_sign s in
  let low := tolower <$> s1 in
  if bool_decide (low = lit "inf") || bool_decide (low = lit "infinity")
  then Some (S754_infinity sign)
  else if bool_decide (low = lit "nan") then Some S754_nan
  else None.

(** Underscores are dropped when each stands between two digits; [prev] is
    the code point before [s]. *)
Fixpoint drop_underscores (prev : N) (s : str) : option str :=
  match s with
  | [] => if prev =? 95 then None else Some []
  | c :: s' =>
      if c =? 95 then
        if is_digit prev then drop_underscores c s' else None
      else if (prev =? 95) && negb (is_digit c) then None
      else (fun r => c :: r) <$> drop_underscores c s'
  end.

Definition c_strip (s : str) : str :=
  let drop := fix drop (s : str) : str :=
    match s with
    | c :: s' => if is_c_space c then drop s' else s
    | [] => []
    end in
  rev (drop (rev (drop s))).

(** *** Stand-ins for the runtime, to run the examples *)

(** A Unicode database that knows no decimal digit beyond ASCII. *)
Definition no_digits : N -> option N := fun _ => None.

(** [float.__repr__] on the whole numbers below [10^16], which it prints
    with their digits and [.0]; on any other float this stand-in gives the
    empty text. *)
Definition repr_whole (x : float) : str :=
  match x with
  | S754_zero s => (if s then lit "-" else []) ++ lit "0.0"
  | S754_finite s m e =>
      let whole :=
        if (0 <=? e)%Z then Some (Z.pos m * 2 ^ e)%Z
        else if (Z.pos m mod 2 ^ (- e) =? 0)%Z then Some (Z.pos m / 2 ^ (- e))%Z
        else None in
      match whole with
      | Some v =>
          if (v <? 10 ^ 16)%Z
          then (if s then lit "-" else []) ++ str_of_int v ++ lit ".0"
          else []
      | None => []
      end
  | _ => []
  end.

Section Runtime.

(** The two parts of the Python runtime that are taken as given: the
    decimal digit value of a code point beyond ASCII in the Unicode
    database ([None] when it is no decimal digit), and [float.__repr__]. *)
Variable todecimal : N -> option N.
Variable float_repr : float -> str.

Set Default Proof Using "Type".

(** Before a number is read, a space beyond ASCII becomes a blank, a
    decimal digit beyond ASCII its ASCII digit, and any other code point
    beyond ASCII a question mark, which no number contains. *)
Definition to_ascii (c : N) : N :=
  if c <? 128 then c
  else if isspace c then 32
  else match todecimal c with
       | Some d => 48 + d
       | None => 63
       end.

(** [float(s)] for a string [s]: underscores between digits are dropped,
    blanks around the number are stripped, and the rest is a decimal
    number, an infinity or not-a-number. *)
Definition py_float (s : str) : result float :=
  let parsed :=
    t ← drop_underscores 0 (to_ascii <$> s);
    let t' := c_strip t in
    match parse_decimal t' with
    | Some x => Some x
    | None => parse_inf_or_nan t'
    end in
  match parsed with
  | Some x => Ok x
  | None => Raise (ValueError s)
  end.

(** *** The aggregation loop of build_html *)

(** The dictionary literal [{"cpu": c, "mem": m}]. *)
Definition entry (c m : float) : gmap (list N) float :=
  <[lit "mem" := m]> (<[lit "cpu" := c]> ∅).

(** The state of the loop: [aggregated] and [time_order]. *)
Definition agg_state : Type := gmap (list N) (gmap (list N) float) * list str.

(** [aggregated[time_key][field] += x]: the inner dictionary is updated in
    place, so the outer one sees the new value. *)
Definition add_to (aggregated : gmap (list N) (gmap (list N) float))
    (time_key field : str) (x : float)
  : result (gmap (list N) (gmap (list N) float)) :=
  inner ← getitem aggregated time_key;
  old ← getitem inner field;
  Ok (<[time_key := <[field := fadd old x]> inner]> aggregated).

(** The body of [for row in rows]. *)
Definition aggregate_row (st : agg_state) (r : row) : result agg_state :=
  let '(aggregated, time_order) := st in
  time_key ← getitem r (lit "time");
  cpu ← getitem r (lit "cpu_pct") ≫= py_float;
  mem ← getitem r (lit "mem_pct") ≫= py_float;
  let '(aggregated, time_order) :=
    match aggregated !! time_key with
    | None => (<[time_key := entry fzero fzero]> aggregated, time_order ++ [time_key])
    | Some _ => (aggregated, time_order)
    end in
  aggregated ← add_to aggregated time_key (lit "cpu") cpu;
  aggregated ← add_to aggregated time_key (lit "mem") mem;
  Ok (aggregated, time_order).

(** The dictionary [chart_data]. *)
Record chart_data : Type := ChartData {
  labels : list str;
  cpu_values : list float;
  mem_values : list float
}.

(** The first statements of [build_html], up to [mem_values]. *)
Definition aggregate (rows : list row) : result chart_data :=
  '(aggregated, time_order) ← for_loop aggregate_row (∅, []) rows;
  let times := time_order in
  cpu_values ← for_each (fun t => getitem aggregated t ≫= fun e => getitem e (lit "cpu")) times;
  mem_values ← for_each (fun t => getitem aggregated t ≫= fun e => getitem e (lit "mem")) times;
  Ok (ChartData times cpu_values mem_values).

(** *** The rest of build_html *)

(** A float in [json.dumps]. *)
Definition json_float (x : float) : str :=
  match x with
  | S754_nan => lit "NaN"
  | S754_infinity false => lit "Infinity"
  | S754_infinity true => lit "-Infinity"
  | _ => float_repr x
  end.

(** [json.dumps(chart_data)] *)
Definition json_dumps (cd : chart_data) : str :=
  lit "{" ++ json_str (lit "labels") ++ lit ": "
  ++ json_list (json_str <$> labels cd)
  ++ lit ", " ++ json_str (lit "cpu") ++ lit ": "
  ++ json_list (json_float <$> cpu_values cd)
  ++ lit ", " ++ json_str (lit "mem") ++ lit ": "
  ++ json_list (json_float <$> mem_values cd)
  ++ lit "}".

(** One line of the table. *)
Definition row_cell (r : row) : result str :=
  time ← getitem r (lit "time");
  pid ← getitem r (lit "pid");
  cpu ← getitem r (lit "cpu_pct");
  mem ← getitem r (lit "mem_pct");
  Ok (lit "<tr><td>" ++ html_escape time
      ++ lit "</td><td>" ++ html_escape pid
      ++ lit "</td><td>" ++ html_escape cpu
      ++ lit "</td><td>" ++ html_escape mem
      ++ lit "</td></tr>").

(** The sentence about the target: all processes or one. *)
Definition target (pid : option Z) : str :=
  match pid with
  | None => lit "All PIDs"
  | Some p => lit "PID " ++ str_of_int p
  end.

(** The report, given the values that fill its holes. *)
Definition page (title : str) (pid : option Z) (interval count : Z)
    (row_cells escaped_raw_output : str) (cd : chart_data) : str :=
  tpl_open ++ html_escape title
  ++ tpl_head ++ html_escape title
  ++ tpl_intro ++ target pid
  ++ tpl_every ++ str_of_int interval
  ++ tpl_for ++ str_of_int count
  ++ tpl_table ++ row_cells
  ++ tpl_pre ++ escaped_raw_output
  ++ tpl_script ++ json_dumps cd
  ++ tpl_close.

Definition build_html (rows : list row) (raw_output : str) (pid : option Z)
    (interval count : Z) (title : str) : result str :=
  cd ← aggregate rows;
  let escaped_raw_output := html_escape raw_output in
  cells ← for_each row_cell rows;
  let row_cells := join nl cells in
  Ok (page title pid interval count row_cells escaped_raw_output cd).

(** *** run_pidstat, write_report and main *)

(** What a run meets and what it can change.  What it meets is the
    operating system's part: [subprocess_run] gives the exit status and the
    captured standard output of a command line, or the exception of a
    command that could not be started or whose output could not be decoded;
    [open_error] is the error, if any, of opening a path for writing;
    [write_error] is the error, if any, of writing a text to an open file,
    with the text that the file is left with; [resolve] is [Path.resolve];
    [stdout_error] is the error, if any, of writing a line to the standard
    output.  What it can change are the files, by path (a file holds the
    text written to it), and the lines printed. *)
Record world : Type := World {
  subprocess_run : list str -> result (Z * str);
  open_error : str -> option exn;
  write_error : str -> str -> option (exn * str);
  resolve : str -> result str;
  stdout_error : str -> option exn;
  files : gmap (list N) (list N);
  printed : list str
}.

Definition set_files (w : world) (fs : gmap (list N) (list N)) : world :=
  World (subprocess_run w) (open_error w) (write_error w) (resolve w)
        (stdout_error w) fs (printed w).

Definition set_printed (w : world) (ls : list str) : world :=
  World (subprocess_run w) (open_error w) (write_error w) (resolve w)
        (stdout_error w) (files w) ls.

Definition pidstat_command (pid : option Z) (interval count : Z) : list str :=
  let pid_arg := match pid with
                 | None => lit "ALL"
                 | Some p => str_of_int p
                 end in
  [ lit "pidstat"; lit "-durh"; lit "-p"; pid_arg;
    str_of_int interval; str_of_int count ].

(** [check=True] turns an exit status other than zero into an exception. *)
Definition run_pidstat (w : world) (pid : option Z) (interval count : Z)
  : result str :=
  let command := pidstat_command pid interval count in
  '(returncode, stdout) ← subprocess_run w command;
  if (returncode =? 0)%Z then Ok stdout
  else Raise (CalledProcessError returncode command).

(** The code points that UTF-8 cannot encode: the surrogates, which a
    string holds when it was decoded from bytes that are no text (a title
    given on the command line, for instance). *)
Definition is_surrogate (c : N) : bool := (0xD800 <=? c) && (c <=? 0xDFFF).

Definition utf8_encodable (s : str) : bool := forallb (fun c => negb (is_surrogate c)) s.

(** [output_path.write_text(html_content, encoding="utf-8")]: the file is
    opened for writing, which leaves it empty, and the text is encoded and
    written. *)
Definition write_report (html_content output_path : str) (w : world)
  : world * result unit :=
  match open_error w output_path with
  | Some e => (w, Raise e)
  | None =>
      if utf8_encodable html_content then
        match write_error w output_path html_content with
        | Some (e, rest) => (set_files w (<[output_path := rest]> (files w)), Raise e)
        | None => (set_files w (<[output_path := html_content]> (files w)), Ok ())
        end
      else (set_files w (<[output_path := []]> (files w)),
            Raise (UnicodeEncodeError html_content))
  end.

Definition print (line : str) (w : world) : world * result unit :=
  match stdout_error w line with
  | Some e => (w, Raise e)
  | None => (set_printed w (printed w ++ [line]), Ok ())
  end.

(** The parsed command line. *)
Record args : Type := Args {
  arg_pid : option Z;
  arg_interval : Z;
  arg_count : Z;
  arg_output : str;
  arg_title : str
}.

Definition NO_ROWS : str :=
  lit "No pidstat rows parsed; check PID and pidstat output".

(** [main], after [parse_args]: the world it leaves, and how it ends. *)
Definition main (a : args) (w : world) : world * result unit :=
  let report :=
    pidstat_output ← run_pidstat w (arg_pid a) (arg_interval a) (arg_count a);
    let rows := parse_pidstat_output pidstat_output in
    match rows with
    | [] => Raise (SystemExit NO_ROWS)
    | _ => build_html rows pidstat_output (arg_pid a) (arg_interval a)
             (arg_count a) (arg_title a)
    end in
  match report with
  | Ok html_report =>
      match write_report html_report (arg_output a) w with
      | (w, Ok _) =>
          match resolve w (arg_output a) with
          | Ok path => print (lit "Report written to " ++ path) w
          | Raise e => (w, Raise e)
          end
      | (w, Raise e) => (w, Raise e)
      end
  | Raise e => (w, Raise e)
  end.

(** The exit status of the process: an exception that reaches the top,
    [SystemExit] with a message among them, ends it with status 1. *)
Definition exit_status {A : Type} (r : result A) : Z :=
  match r with
  | Ok _ => 0
  | Raise _ => 1
  end.

(** *** The aggregation, as the specification words it *)

(** What the loop body reads from one record before it updates anything:
    the time stamp and the two numbers, as its first three statements
    do. *)
Record sample : Type := Sample {
  s_time : str;
  s_cpu : float;
  s_mem : float
}.

Definition row_values (r : row) : result sample :=
  time_key ← getitem r (lit "time");
  cpu ← getitem r (lit "cpu_pct") ≫= py_float;
  mem ← getitem r (lit "mem_pct") ≫= py_float;
  Ok (Sample time_key cpu mem).

(** A record can be read when it has a time stamp and its two numbers
    convert. *)
Definition readable (r : row) : Prop :=
  is_Some (r !! lit "time") /\
  (exists tok x, r !! lit "cpu_pct" = Some tok /\ py_float tok = Ok x) /\
  (exists tok x, r !! lit "mem_pct" = Some tok /\ py_float tok = Ok x).

(** The distinct elements of a list, in the order of their first
    occurrences. *)
Fixpoint first_seen (l : list str) : list str :=
  match l with
  | [] => []
  | x :: l' => x :: filter (fun y => y <> x) (first_seen l')
  end.

(** The position of the first occurrence of [x] in [l]. *)
Fixpoint first_index (x : str) (l : list str) : option nat :=
  match l with
  | [] => None
  | y :: l' => if decide (y = x) then Some 0%nat else S <$> first_index x l'
  end.

(** A sum of floats, taken from the left, starting from [0.0]. *)
Definition fsum (xs : list float) : float := foldl fadd fzero xs.

(** The samples that share the time stamp [t], in their order. *)
Definition group (t : str) (vs : list sample) : list sample :=
  filter (fun v => s_time v = t) vs.

(** One point per distinct time stamp, in first-seen order, with the sums
    over its group. *)
Definition aggregated_points (vs : list sample) : chart_data :=
  let ts := first_seen (s_time <$> vs) in
  ChartData ts
    ((fun t => fsum (s_cpu <$> group t vs)) <$> ts)
    ((fun t => fsum (s_mem <$> group t vs)) <$> ts).

(** What the loop has built after the samples [vs]. *)
Definition agg_inv (st : agg_state) (vs : list sample) : Prop :=
  st.2 = first_seen (s_time <$> vs) /\
  forall t, st.1 !! t =
    if decide (t ∈ s_time <$> vs)
    then Some (entry (fsum (s_cpu <$> group t vs)) (fsum (s_mem <$> group t vs)))
    else None.

(** *** Sample data *)

Definition sample_header : str :=
  lit "# Time UID PID %usr %system %guest %CPU CPU minflt/s majflt/s VSZ RSS %MEM kB_rd/s kB_wr/s kB_ccwr/s iodelay Command".

Definition sample_line_a : str :=
  lit "1699000000 0 101 8.00 2.00 0.00 10 1 5.00 0.00 123456 7890 1.5 0.00 0.00 0.00 0 python3".

Definition sample_line_b : str :=
  lit "1699000000 0 202 15.00 5.00 0.00 20 0 1.00 0.00 654321 9870 2.5 0.00 0.00 0.00 0 postgres".

(** Three lines: the header and two processes at one time stamp. *)
Definition sample_output : str :=
  sample_header ++ nl ++ sample_line_a ++ nl ++ sample_line_b ++ nl.

Definition short_line : str := lit "1699000000 0 101 8.00 2.00".

(** A line as pidstat prints it where the decimal separator is a comma. *)
Definition comma_line : str :=
  lit "1699000000 0 101 8,00 2,00 0,00 10,00 1 5,00 0,00 123456 7890 1,50 0,00 0,00 0,00 0 python3".

(** The same with a comma in the memory column only. *)
Definition comma_mem_line : str :=
  lit "1699000000 0 101 8.00 2.00 0.00 10.00 1 5.00 0.00 123456 7890 1,50 0.00 0.00 0.00 0 python3".

(** A line with markup in the pid column. *)
Definition markup_line : str :=
  lit "1699000000 0 <b>&7 8.00 2.00 0.00 10 1 5.00 0.00 123456 7890 1.5 0.00 0.00 0.00 0 python3".


(** The command line without options, which has the defaults. *)
Definition default_args : args :=
  Args None 1 5 (lit "pidstat_report.html") (lit "pidstat performance report").

(** A world without files where every command ends with the status [rc]
    and the output [out], and where nothing else fails. *)
Definition world_with (rc : Z) (out : str) : world :=
  World (fun _ => Ok (rc, out)) (fun _ => None) (fun _ _ => None)
        (fun p => Ok (lit "/work/" ++ p)) (fun _ => None) ∅ [].



(** Three records whose time stamps are neither in lexical nor in numeric
    order. *)
Definition clock_line (time pid : string) : str :=
  lit time ++ lit " 0 " ++ lit pid
  ++ lit " 0.00 0.00 0.00 1.0 0 0.00 0.00 1000 100 0.5 0.00 0.00 0.00 0 worker".

Definition unsorted_rows : list row :=
  parse_pidstat_output
    (join nl [clock_line "10:00" "1"; clock_line "09:00" "1"; clock_line "10:00" "2"]).

(** Three records at one time stamp with the cpu values 0.1, 0.2 and 0.3,
    in this order and in the reverse order. *)
Definition tenth_line (pid cpu : string) : str :=
  lit "1699000000 0 " ++ lit pid ++ lit " 0.00 0.00 0.00 " ++ lit cpu
  ++ lit " 0 0.00 0.00 1000 100 0.5 0.00 0.00 0.00 0 worker".

Definition rows_up : list row :=
  parse_pidstat_output
    (join nl [tenth_line "1" "0.1"; tenth_line "2" "0.2"; tenth_line "3" "0.3"]).

Definition rows_down : list row :=
  parse_pidstat_output
    (join nl [tenth_line "3" "0.3"; tenth_line "2" "0.2"; tenth_line "1" "0.1"]).

(** * Properties *)

(** ** The parser *)

Lemma startswith_prefix (s p : str) : startswith s p = true <-> p `prefix_of` s.
Proof.
  revert s. induction p as [|a p IH]; intros s; simpl.
  - split; [intros _; apply prefix_nil | done].
  - destruct s as [|b s].
    + split; [done | intros [k Hk]; discriminate Hk].
    + rewrite andb_true_iff, N.eqb_eq, IH. split.
      * intros [-> Hp]. by apply prefix_cons.
      * intros [k Hk]. injection Hk as -> ->. split; [done | by exists k].
Qed.

Lemma startswith_any_markers (s : str) :
  startswith_any s MARKERS = true <->
  lit "Linux" `prefix_of` s \/ lit "#" `prefix_of` s \/ lit "Average:" `prefix_of` s.
Proof.
  unfold startswith_any, MARKERS. cbn [existsb].
  rewrite !orb_true_iff, !startswith_prefix. intuition discriminate.
Qed.


(** The loop only ever appends to [rows]. *)
Lemma parse_line_app (rows : list row) (line : str) :
  parse_line rows line = rows ++ parse_line [] line.
Proof.
  unfold parse_line.
  destruct (bool_decide (strip line = []) || startswith_any (strip line) MARKERS);
    [by rewrite app_nil_r |].
  destruct (length (split (strip line)) <? length TABLE_COLUMNS)%nat;
    [by rewrite app_nil_r | done].
Qed.

Lemma foldl_parse_line (acc : list row) (ls : list str) :
  foldl parse_line acc ls = acc ++ flat_map (parse_line []) ls.
Proof.
  revert acc. induction ls as [|l ls IH]; intros acc; simpl.
  - by rewrite app_nil_r.
  - rewrite IH, (parse_line_app acc l). by rewrite <- app_assoc.
Qed.

Lemma parse_pidstat_output_lines (stdout : str) :
  parse_pidstat_output stdout = flat_map (parse_line []) (splitlines stdout).
Proof. unfold parse_pidstat_output. by rewrite foldl_parse_line. Qed.

(** C5: a line that, once stripped, is empty or begins with "Linux", "#" or
    "Average:" leaves the list of records as it is, and the records of a
    whole text are those of its other lines. *)
Theorem marker_lines_excluded (line : str) :
  strip line = [] \/ lit "Linux" `prefix_of` strip line
  \/ lit "#" `prefix_of` strip line \/ lit "Average:" `prefix_of` strip line ->
  (forall rows, parse_line rows line = rows) /\
  (forall stdout before after,
     splitlines stdout = before ++ line :: after ->
     parse_pidstat_output stdout = flat_map (parse_line []) (before ++ after)).
Proof.
  intros H.
  assert (Hline : forall rows, parse_line rows line = rows).
  { intros rows. unfold parse_line.
    destruct H as [-> | H]; [done |].
    apply startswith_any_markers in H. rewrite H. by rewrite orb_true_r. }
  split; [done |].
  intros stdout before after Hs.
  rewrite parse_pidstat_output_lines, Hs, !flat_map_app. simpl.
  by rewrite Hline.
Qed.

Lemma dict_columns (parts : list str) :
  (length TABLE_COLUMNS <= length parts)%nat ->
  (forall i col, TABLE_COLUMNS !! i = Some col ->
     dict (zip TABLE_COLUMNS parts) !! col = parts !! i) /\
  dom (dict (zip TABLE_COLUMNS parts)) = list_to_set TABLE_COLUMNS.
Proof.
  intros Hlen.
  do 17 (destruct parts as [|? parts]; [simpl in Hlen; lia |]).
  clear Hlen. split.
  - intros i col Hi.
    do 17 (destruct i as [|i]; [injection Hi as <-; reflexivity |]).
    discriminate Hi.
  - compute_done.
Qed.

(** C1: a line that is neither blank nor a marker line gives no record when
    it has fewer than 17 tokens, and otherwise exactly one record, whose 17
    fields are the first 17 tokens under the column names in their order.
    This holds of the turn of the loop for this line and of what the parser
    returns for a text with this line: the records of the lines before it,
    then none or this one, then the records of the lines after it. *)
Theorem data_line_record (line : str) :
  strip line <> [] ->
  ~ (lit "Linux" `prefix_of` strip line \/ lit "#" `prefix_of` strip line
     \/ lit "Average:" `prefix_of` strip line) ->
  let parts := split (strip line) in
  ((length parts < 17)%nat ->
   (forall rows, parse_line rows line = rows) /\
   (forall stdout before after,
      splitlines stdout = before ++ line :: after ->
      parse_pidstat_output stdout
      = flat_map (parse_line []) before ++ flat_map (parse_line []) after) /\
   (forall stdout, splitlines stdout = [line] -> parse_pidstat_output stdout = [])) /\
  ((17 <= length parts)%nat ->
   exists r : row,
     (forall rows, parse_line rows line = rows ++ [r]) /\
     (forall i col, TABLE_COLUMNS !! i = Some col -> r !! col = parts !! i) /\
     dom r = list_to_set TABLE_COLUMNS /\
     (forall stdout before after,
        splitlines stdout = before ++ line :: after ->
        parse_pidstat_output stdout
        = flat_map (parse_line []) before ++ r :: flat_map (parse_line []) after) /\
     (forall stdout, splitlines stdout = [line] -> parse_pidstat_output stdout = [r])).
Proof.
  intros Hne Hmark parts.
  assert (Hskip : bool_decide (strip line = []) || startswith_any (strip line) MARKERS = false).
  { apply orb_false_iff. split.
    - by apply bool_decide_eq_false.
    - apply not_true_is_false. by rewrite startswith_any_markers. }
  split.
  - intros Hlen.
    assert (Hline : forall rows, parse_line rows line = rows).
    { intros rows. unfold parse_line. rewrite Hskip.
      fold parts. change (length TABLE_COLUMNS) with 17%nat.
      by apply Nat.ltb_lt in Hlen as ->. }
    split_and!; [exact Hline | |].
    + intros stdout before after Hs.
      rewrite parse_pidstat_output_lines, Hs, flat_map_app. cbn [flat_map].
      by rewrite Hline.
    + intros stdout Hs. rewrite parse_pidstat_output_lines, Hs. cbn [flat_map].
      by rewrite Hline.
  - intros Hlen. exists (dict (zip TABLE_COLUMNS parts)).
    assert (Hline : forall rows,
      parse_line rows line = rows ++ [dict (zip TABLE_COLUMNS parts)]).
    { intros rows. unfold parse_line. rewrite Hskip.
      fold parts. change (length TABLE_COLUMNS) with 17%nat.
      by apply Nat.ltb_ge in Hlen as ->. }
    destruct (dict_columns parts Hlen) as [Hcols Hdom].
    split_and!; [exact Hline | exact Hcols | exact Hdom | |].
    + intros stdout before after Hs.
      rewrite parse_pidstat_output_lines, Hs, flat_map_app. cbn [flat_map].
      by rewrite Hline.
    + intros stdout Hs. rewrite parse_pidstat_output_lines, Hs. cbn [flat_map].
      by rewrite Hline.
Qed.

(** ** The aggregator *)

Lemma first_seen_snoc (l : list str) (x : str) :
  first_seen (l ++ [x]) = if decide (x ∈ l) then first_seen l else first_seen l ++ [x].
Proof.
  induction l as [|y l IH].
  - by rewrite decide_False by apply not_elem_of_nil.
  - change ((y :: l) ++ [x]) with (y :: (l ++ [x])). cbn [first_seen].
    rewrite IH. destruct (decide (x ∈ l)) as [Hin | Hin].
    + by rewrite decide_True by (rewrite elem_of_cons; by right).
    + rewrite filter_app. destruct (decide (x = y)) as [-> | Hne].
      * rewrite decide_True by (rewrite elem_of_cons; by left).
        rewrite filter_cons_False by (intros H; by apply H).
        by rewrite filter_nil, app_nil_r.
      * rewrite decide_False by (rewrite elem_of_cons; intros [? | ?]; done).
        by rewrite filter_cons_True by done.
Qed.

Lemma elem_of_first_seen (l : list str) (x : str) : x ∈ first_seen l <-> x ∈ l.
Proof.
  induction l as [|y l IH]; simpl; [done |].
  rewrite !elem_of_cons, list_elem_of_filter, IH.
  destruct (decide (x = y)) as [-> | Hne]; [tauto |]. intuition congruence.
Qed.

Lemma NoDup_first_seen (l : list str) : NoDup (first_seen l).
Proof.
  induction l as [|y l IH]; simpl; [constructor |].
  constructor.
  - rewrite list_elem_of_filter. intros [Hne _]. by apply Hne.
  - by apply NoDup_filter.
Qed.

Lemma group_snoc (t : str) (vs : list sample) (v : sample) :
  group t (vs ++ [v]) = if decide (s_time v = t) then group t vs ++ [v] else group t vs.
Proof.
  unfold group. rewrite filter_app.
  destruct (decide (s_time v = t)).
  - by rewrite filter_cons_True.
  - by rewrite filter_cons_False, filter_nil, app_nil_r.
Qed.

Lemma group_absent (t : str) (vs : list sample) :
  t ∉ s_time <$> vs -> group t vs = [].
Proof.
  intros Hnot. unfold group. induction vs as [|v vs IH]; [done |].
  rewrite fmap_cons, not_elem_of_cons in Hnot. destruct Hnot as [Hne Hnot].
  rewrite filter_cons_False by done. by apply IH.
Qed.

Lemma fsum_snoc (xs : list float) (x : float) : fsum (xs ++ [x]) = fadd (fsum xs) x.
Proof. unfold fsum. by rewrite foldl_app. Qed.

Lemma agg_inv_init : agg_inv (∅, []) [].
Proof. split; [done |]. intros t. simpl. by rewrite lookup_empty. Qed.

Lemma entry_cpu (c m : float) : entry c m !! lit "cpu" = Some c.
Proof. reflexivity. Qed.

Lemma entry_mem (c m : float) : entry c m !! lit "mem" = Some m.
Proof. reflexivity. Qed.

Lemma entry_set_cpu (c m x : float) : <[lit "cpu" := x]> (entry c m) = entry x m.
Proof. reflexivity. Qed.

Lemma entry_set_mem (c m x : float) : <[lit "mem" := x]> (entry c m) = entry c x.
Proof. reflexivity. Qed.

Lemma add_to_entry {B : Type} (aggregated : gmap (list N) (gmap (list N) float))
    (t : str) (c m x y : float)
    (k : gmap (list N) (gmap (list N) float) -> result B) :
  aggregated !! t = Some (entry c m) ->
  (a1 ← add_to aggregated t (lit "cpu") x; a2 ← add_to a1 t (lit "mem") y; k a2)
  = k (<[t := entry (fadd c x) (fadd m y)]> aggregated).
Proof.
  intros Ht. unfold add_to, getitem. rewrite Ht. cbn [mbind result_bind].
  rewrite entry_cpu. cbn [mbind result_bind].
  rewrite lookup_insert_eq. cbn [mbind result_bind].
  rewrite entry_set_cpu, entry_mem. cbn [mbind result_bind].
  by rewrite entry_set_mem, insert_insert_eq.
Qed.

Lemma aggregate_row_values (st : agg_state) (r : row) :
  aggregate_row st r =
  v ← row_values r;
  let '(aggregated, time_order) := st in
  let '(aggregated, time_order) :=
    match aggregated !! s_time v with
    | None => (<[s_time v := entry fzero fzero]> aggregated, time_order ++ [s_time v])
    | Some _ => (aggregated, time_order)
    end in
  aggregated ← add_to aggregated (s_time v) (lit "cpu") (s_cpu v);
  aggregated ← add_to aggregated (s_time v) (lit "mem") (s_mem v);
  Ok (aggregated, time_order).
Proof.
  unfold aggregate_row, row_values. destruct st as [aggregated time_order].
  destruct (getitem r (lit "time")) as [t|]; [simpl | done].
  destruct (getitem r (lit "cpu_pct") ≫= py_float) as [c|]; [simpl | done].
  destruct (getitem r (lit "mem_pct") ≫= py_float) as [m|]; [simpl | done].
  done.
Qed.

Lemma aggregate_row_raise (st : agg_state) (r : row) (e : exn) :
  row_values r = Raise e -> aggregate_row st r = Raise e.
Proof. intros H. by rewrite aggregate_row_values, H. Qed.

Lemma aggregate_row_step (st : agg_state) (vs : list sample) (r : row) (v : sample) :
  agg_inv st vs -> row_values r = Ok v ->
  exists st', aggregate_row st r = Ok st' /\ agg_inv st' (vs ++ [v]).
Proof.
  intros [Horder Hmap] Hv. rewrite aggregate_row_values, Hv.
  destruct st as [aggregated time_order]. simpl in Horder, Hmap.
  cbn [mbind result_bind].
  set (t := s_time v).
  set (C := fsum (s_cpu <$> group t vs)). set (M := fsum (s_mem <$> group t vs)).
  pose proof (Hmap t) as Ht.
  assert (Hnew : exists aggregated' time_order',
    match aggregated !! t with
    | None => (<[t := entry fzero fzero]> aggregated, time_order ++ [t])
    | Some _ => (aggregated, time_order)
    end = (aggregated', time_order') /\
    aggregated' !! t = Some (entry C M) /\
    time_order' = first_seen (s_time <$> vs ++ [v]) /\
    forall t', t' <> t -> aggregated' !! t' = aggregated !! t').
  { rewrite fmap_app, list_fmap_singleton, first_seen_snoc. fold t.
    destruct (decide (t ∈ s_time <$> vs)) as [Hin | Hin]; rewrite Ht.
    - by exists aggregated, time_order.
    - exists (<[t := entry fzero fzero]> aggregated), (time_order ++ [t]).
      split; [done |]. split; [| split].
      + rewrite lookup_insert_eq. unfold C, M. by rewrite (group_absent t vs Hin).
      + by rewrite Horder.
      + intros t' Hne. by rewrite lookup_insert_ne. }
  destruct Hnew as (aggregated' & time_order' & -> & Hent & Horder' & Hother).
  rewrite (add_to_entry aggregated' t C M _ _ _ Hent).
  eexists. split; [reflexivity |]. split; [exact Horder' |].
  intros t'. cbn [fst]. rewrite fmap_app, list_fmap_singleton.
  fold t. rewrite !group_snoc. fold t.
  destruct (decide (t' = t)) as [-> | Hne].
  - rewrite lookup_insert_eq.
    rewrite decide_True by (apply elem_of_app; right; by apply list_elem_of_singleton).
    rewrite decide_True by done.
    by rewrite !fmap_app, !list_fmap_singleton, !fsum_snoc.
  - rewrite lookup_insert_ne by done. rewrite Hother, Hmap by done.
    rewrite (decide_False (P := t = t')) by done.
    destruct (decide (t' ∈ s_time <$> vs)) as [Hin | Hin].
    + by rewrite decide_True by (apply elem_of_app; by left).
    + rewrite decide_False; [done |].
      rewrite elem_of_app, list_elem_of_singleton. intros [? | ?]; done.
Qed.

Lemma for_loop_aggregate (rows : list row) (st : agg_state) (vs0 : list sample) :
  agg_inv st vs0 ->
  match for_each row_values rows with
  | Ok vs => exists st', for_loop aggregate_row st rows = Ok st' /\ agg_inv st' (vs0 ++ vs)
  | Raise e => for_loop aggregate_row st rows = Raise e
  end.
Proof.
  revert st vs0. induction rows as [|r rows IH]; intros st vs0 Hinv; simpl.
  - exists st. by rewrite app_nil_r.
  - destruct (row_values r) as [v | e] eqn:Hv; cbn [mbind result_bind].
    + destruct (aggregate_row_step st vs0 r v Hinv Hv) as (st1 & -> & Hinv1).
      cbn [mbind result_bind]. specialize (IH st1 _ Hinv1).
      destruct (for_each row_values rows) as [vs | e]; cbn [mbind result_bind].
      * destruct IH as (st' & -> & Hinv'). exists st'. split; [done |].
        by rewrite <- app_assoc in Hinv'.
      * done.
    + by rewrite (aggregate_row_raise st r e Hv).
Qed.

Lemma for_each_known {A B} (f : A -> result B) (g : A -> B) (l : list A) :
  (forall x, x ∈ l -> f x = Ok (g x)) -> for_each f l = Ok (g <$> l).
Proof.
  induction l as [|x l IH]; intros H; simpl; [done |].
  rewrite (H x) by (rewrite elem_of_cons; by left). cbn [mbind result_bind].
  rewrite IH by (intros y Hy; apply H; rewrite elem_of_cons; by right).
  done.
Qed.

Lemma for_each_length {A B} (f : A -> result B) (l : list A) (ys : list B) :
  for_each f l = Ok ys -> length ys = length l.
Proof.
  revert ys. induction l as [|x l IH]; intros ys; simpl.
  - by intros [= <-].
  - destruct (f x) as [y|]; [| done]. cbn [mbind result_bind].
    destruct (for_each f l) as [ys'|]; [| done]. cbn [mbind result_bind].
    intros [= <-]. simpl. by rewrite (IH ys').
Qed.

(** The aggregation loop computes the points of the specification; when a
    record cannot be read, the exception of the first such record ends
    it. *)
Lemma aggregate_points (rows : list row) :
  aggregate rows = vs ← for_each row_values rows; Ok (aggregated_points vs).
Proof.
  unfold aggregate.
  pose proof (for_loop_aggregate rows (∅, []) [] agg_inv_init) as H.
  destruct (for_each row_values rows) as [vs | e]; cbn [mbind result_bind].
  - destruct H as ([aggregated time_order] & -> & Horder & Hmap).
    simpl in Horder, Hmap. cbn [mbind result_bind].
    assert (Hin : forall t, t ∈ time_order -> aggregated !! t =
      Some (entry (fsum (s_cpu <$> group t vs)) (fsum (s_mem <$> group t vs)))).
    { intros t Ht. rewrite Horder in Ht.
      apply (proj1 (elem_of_first_seen _ _)) in Ht.
      rewrite Hmap. by rewrite decide_True by done. }
    rewrite (for_each_known
               (fun t => getitem aggregated t ≫= fun e => getitem e (lit "cpu"))
               (fun t => fsum (s_cpu <$> group t vs))).
    2:{ intros t Ht. unfold getitem. by rewrite (Hin t Ht). }
    cbn [mbind result_bind].
    rewrite (for_each_known
               (fun t => getitem aggregated t ≫= fun e => getitem e (lit "mem"))
               (fun t => fsum (s_mem <$> group t vs))).
    2:{ intros t Ht. unfold getitem. by rewrite (Hin t Ht). }
    cbn [mbind result_bind]. unfold aggregated_points. by rewrite Horder.
  - by rewrite H.
Qed.

Lemma for_each_cons_inv {A B} (f : A -> result B) (x : A) (l : list A) (ys : list B) :
  for_each f (x :: l) = Ok ys ->
  exists y ys', f x = Ok y /\ for_each f l = Ok ys' /\ ys = y :: ys'.
Proof.
  simpl. destruct (f x) as [y|]; [| done]. cbn [mbind result_bind].
  destruct (for_each f l) as [ys'|]; [| done]. cbn [mbind result_bind].
  intros [= <-]. by exists y, ys'.
Qed.

Lemma row_values_time (r : row) (v : sample) :
  row_values r = Ok v -> r !! lit "time" = Some (s_time v).
Proof.
  unfold row_values.
  destruct (getitem r (lit "time")) as [t|] eqn:Ht; cbn [mbind result_bind]; [| done].
  destruct (getitem r (lit "cpu_pct") ≫= py_float) as [c|];
    cbn [mbind result_bind]; [| done].
  destruct (getitem r (lit "mem_pct") ≫= py_float) as [m|];
    cbn [mbind result_bind]; [| done].
  intros [= <-]. cbn [s_time]. unfold getitem in Ht.
  destruct (r !! lit "time"); by inversion Ht.
Qed.

Lemma for_each_times (rows : list row) (vs : list sample) :
  for_each row_values rows = Ok vs ->
  omap (fun r : row => r !! lit "time") rows = s_time <$> vs.
Proof.
  revert vs. induction rows as [|r rows IH]; intros vs.
  - by intros [= <-].
  - intros (v & vs' & Hv & Hvs & ->)%for_each_cons_inv.
    change (omap (fun r : row => r !! lit "time") (r :: rows))
      with (match r !! lit "time" with
            | Some t => t :: omap (fun r : row => r !! lit "time") rows
            | None => omap (fun r : row => r !! lit "time") rows
            end).
    by rewrite (row_values_time r v Hv), (IH vs' Hvs).
Qed.

Lemma first_index_elem (x : str) (l : list str) :
  x ∈ l -> exists p, first_index x l = Some p.
Proof.
  induction l as [|y l IH]; [by intros ?%elem_of_nil |].
  intros Hin. simpl. destruct (decide (y = x)) as [|Hne]; [by exists 0%nat |].
  apply elem_of_cons in Hin as [-> | Hin]; [done |].
  destruct (IH Hin) as [p ->]. by exists (S p).
Qed.

Lemma filter_lookup_order {A} (P : A -> Prop) `{!forall x, Decision (P x)}
    (l : list A) (i j : nat) (a b : A) :
  filter P l !! i = Some a -> filter P l !! j = Some b -> (i < j)%nat ->
  exists i' j', l !! i' = Some a /\ l !! j' = Some b /\ (i' < j')%nat.
Proof.
  revert i j. induction l as [|y l IH]; intros i j Hi Hj Hlt; [done |].
  destruct (decide (P y)) as [Hy | Hy].
  - rewrite filter_cons_True in Hi, Hj by done.
    destruct i as [|i], j as [|j]; try lia.
    + injection Hi as ->. change (filter P l !! j = Some b) in Hj.
      assert (Hb : b ∈ l).
      { apply list_elem_of_lookup_2 in Hj. by apply list_elem_of_filter in Hj as [_ ?]. }
      apply list_elem_of_lookup_1 in Hb as [j' Hj'].
      exists 0%nat, (S j'). split_and!; [done | done | lia].
    + change (filter P l !! i = Some a) in Hi.
      change (filter P l !! j = Some b) in Hj.
      destruct (IH i j Hi Hj ltac:(lia)) as (i' & j' & ? & ? & ?).
      exists (S i'), (S j'). split_and!; [done | done | lia].
  - rewrite filter_cons_False in Hi, Hj by done.
    destruct (IH i j Hi Hj Hlt) as (i' & j' & ? & ? & ?).
    exists (S i'), (S j'). split_and!; [done | done | lia].
Qed.

(** In [first_seen l], an element stands before another exactly as their
    first occurrences do in [l]. *)
Lemma first_seen_order (l : list str) (i j : nat) (a b : str) :
  first_seen l !! i = Some a -> first_seen l !! j = Some b -> (i < j)%nat ->
  exists p q, first_index a l = Some p /\ first_index b l = Some q /\ (p < q)%nat.
Proof.
  revert i j. induction l as [|x l IH]; intros i j Hi Hj Hlt; [done |].
  cbn [first_seen] in Hi, Hj.
  assert (Hfilt : forall k c, filter (fun y => y <> x) (first_seen l) !! k = Some c ->
            c <> x /\ c ∈ l).
  { intros k c Hk. apply list_elem_of_lookup_2, list_elem_of_filter in Hk as [? Hc].
    split; [done |]. by apply elem_of_first_seen. }
  destruct i as [|i], j as [|j]; try lia.
  - injection Hi as ->.
    change (filter (fun y => y <> a) (first_seen l) !! j = Some b) in Hj.
    destruct (Hfilt j b Hj) as [Hne Hin].
    destruct (first_index_elem b l Hin) as [q Hq].
    exists 0%nat, (S q). cbn [first_index].
    rewrite decide_True by done. rewrite decide_False by done.
    rewrite Hq. split_and!; [done | done | lia].
  - change (filter (fun y => y <> x) (first_seen l) !! i = Some a) in Hi.
    change (filter (fun y => y <> x) (first_seen l) !! j = Some b) in Hj.
    destruct (Hfilt i a Hi) as [Hna _], (Hfilt j b Hj) as [Hnb _].
    destruct (filter_lookup_order _ _ i j a b Hi Hj ltac:(lia)) as (i' & j' & Hi' & Hj' & Hlt').
    destruct (IH i' j' Hi' Hj' Hlt') as (p & q & Hp & Hq & Hpq).
    exists (S p), (S q). cbn [first_index].
    rewrite !decide_False by done. rewrite Hp, Hq.
    split_and!; [done | done | lia].
Qed.

(** C4: the labels of the chart are the time stamps of the records in the
    order of their first occurrences: one label stands before another
    exactly when its first record comes before the other's first record. *)
Theorem labels_in_first_seen_order (rows : list row) (cd : chart_data) :
  aggregate rows = Ok cd ->
  let times := omap (fun r : row => r !! lit "time") rows in
  length times = length rows /\
  labels cd = first_seen times /\
  forall i j a b,
    labels cd !! i = Some a -> labels cd !! j = Some b -> (i < j)%nat ->
    exists p q, first_index a times = Some p /\ first_index b times = Some q
                /\ (p < q)%nat.
Proof.
  intros Hagg times. rewrite aggregate_points in Hagg.
  destruct (for_each row_values rows) as [vs|] eqn:Hvs; [| done].
  injection Hagg as <-. unfold times.
  rewrite (for_each_times rows vs Hvs). cbn [labels aggregated_points].
  split_and!.
  - rewrite length_fmap. by eapply for_each_length.
  - done.
  - apply first_seen_order.
Qed.

Lemma for_each_app {A B} (f : A -> result B) (l1 l2 : list A) :
  for_each f (l1 ++ l2) = ys1 ← for_each f l1; ys2 ← for_each f l2; Ok (ys1 ++ ys2).
Proof.
  induction l1 as [|x l1 IH]; simpl.
  - by destruct (for_each f l2).
  - destruct (f x) as [y|]; cbn [mbind result_bind]; [| done].
    rewrite IH. destruct (for_each f l1) as [ys1|]; cbn [mbind result_bind]; [| done].
    by destruct (for_each f l2).
Qed.

Lemma aggregated_points_facts (vs : list sample) :
  let cd := aggregated_points vs in
  NoDup (labels cd) /\
  (forall t, t ∈ labels cd <-> t ∈ s_time <$> vs) /\
  forall i t, labels cd !! i = Some t ->
    cpu_values cd !! i = Some (fsum (s_cpu <$> group t vs)) /\
    mem_values cd !! i = Some (fsum (s_mem <$> group t vs)).
Proof.
  cbn. split_and!.
  - apply NoDup_first_seen.
  - intros t. apply elem_of_first_seen.
  - intros i t Hi. by rewrite !list_lookup_fmap, Hi.
Qed.

(** C3: the aggregator gives one point per distinct time stamp, with the
    sum of the cpu fields and the sum of the mem fields of the records that
    carry this time stamp (a record that cannot be read ends it with that
    record's exception); two records at one time stamp with cpu 10 and 20
    give one point with cpu 30, the float [8444249301319680 * 2^-48], as
    does the sample text of three lines. *)
Theorem aggregated_sums (rows : list row) :
  aggregate rows = (vs ← for_each row_values rows; Ok (aggregated_points vs)) /\
  (forall vs : list sample,
     let cd := aggregated_points vs in
     NoDup (labels cd) /\
     (forall t, t ∈ labels cd <-> t ∈ s_time <$> vs) /\
     forall i t, labels cd !! i = Some t ->
       cpu_values cd !! i = Some (fsum (s_cpu <$> group t vs)) /\
       mem_values cd !! i = Some (fsum (s_mem <$> group t vs))) /\
  (forall (r1 r2 : row) (t mem1 mem2 : str) (m1 m2 : float),
     r1 !! lit "time" = Some t -> r2 !! lit "time" = Some t ->
     r1 !! lit "cpu_pct" = Some (lit "10") -> r2 !! lit "cpu_pct" = Some (lit "20") ->
     r1 !! lit "mem_pct" = Some mem1 -> r2 !! lit "mem_pct" = Some mem2 ->
     py_float mem1 = Ok m1 -> py_float mem2 = Ok m2 ->
     aggregate [r1; r2]
     = Ok (ChartData [t] [S754_finite false 8444249301319680 (-48)]
             [fadd (fadd fzero m1) m2])) /\
  aggregate (parse_pidstat_output sample_output)
  = Ok (ChartData [lit "1699000000"]
          [S754_finite false 8444249301319680 (-48)]
          [S754_finite false 4503599627370496 (-50)]).
Proof.
  split_and!.
  - apply aggregate_points.
  - apply aggregated_points_facts.
  - intros r1 r2 t mem1 mem2 m1 m2 Ht1 Ht2 Hc1 Hc2 Hm1 Hm2 Hf1 Hf2.
    rewrite aggregate_points. cbn [for_each]. unfold row_values, getitem.
    rewrite Ht1, Ht2, Hc1, Hc2, Hm1, Hm2.
    cbn [mbind result_bind]. rewrite Hf1, Hf2.
    replace (py_float (lit "10")) with (Ok (S754_finite false 5629499534213120 (-49)))
      by (vm_compute; reflexivity).
    replace (py_float (lit "20")) with (Ok (S754_finite false 5629499534213120 (-48)))
      by (vm_compute; reflexivity).
    cbn [mbind result_bind]. unfold aggregated_points, group.
    cbn [fmap list_fmap s_time first_seen filter list_filter].
    destruct (decide (t <> t)) as [Hne | _]; [by destruct Hne |].
    destruct (decide (t = t)) as [_ | Hne]; [| by destruct Hne].
    cbn [fmap list_fmap s_cpu s_mem fsum foldl].
    replace (fadd (fadd fzero (S754_finite false 5629499534213120 (-49)))
               (S754_finite false 5629499534213120 (-48)))
      with (S754_finite false 8444249301319680 (-48)) by (vm_compute; reflexivity).
    reflexivity.
  - rewrite aggregate_points. vm_compute. reflexivity.
Qed.

Lemma build_html_inv (rows : list row) (raw : str) (pid : option Z)
    (interval count : Z) (title doc : str) :
  build_html rows raw pid interval count title = Ok doc ->
  exists cd cells,
    aggregate rows = Ok cd /\ for_each row_cell rows = Ok cells /\
    doc = page title pid interval count (join nl cells) (html_escape raw) cd.
Proof.
  unfold build_html.
  destruct (aggregate rows) as [cd|]; cbn [mbind result_bind]; [| done].
  destruct (for_each row_cell rows) as [cells|]; cbn [mbind result_bind]; [| done].
  intros [= <-]. by exists cd, cells.
Qed.

Lemma build_html_Ok (rows : list row) (raw : str) (pid : option Z)
    (interval count : Z) (title : str) (cd : chart_data) (cells : list str) :
  aggregate rows = Ok cd -> for_each row_cell rows = Ok cells ->
  build_html rows raw pid interval count title
  = Ok (page title pid interval count (join nl cells) (html_escape raw) cd).
Proof. intros Hcd Hcells. unfold build_html. by rewrite Hcd, Hcells. Qed.

(** ** The literal read back *)

Lemma read_from_app (st : reader) (s1 s2 : str) :
  read_from st (s1 ++ s2)
  = match read_from st s1 with
    | Some st' => read_from st' s2
    | None => None
    end.
Proof.
  revert st. induction s1 as [|c s1 IH]; intros st; [done |].
  cbn [app read_from]. by destruct (read_char st c).
Qed.

Lemma read_from_chain (st st' st'' : reader) (s1 s2 : str) :
  read_from st s1 = Some st' -> read_from st' s2 = Some st'' ->
  read_from st (s1 ++ s2) = Some st''.
Proof. intros H1 H2. by rewrite read_from_app, H1. Qed.

(** Inside a string, a code point that is neither the backslash nor the
    double quote is kept and leaves the reader inside the string. *)
Lemma read_char_plain (a : bool) (it : str) (its : list str)
    (arrs : list (list str)) (c : N) :
  c <> 92 -> c <> 34 ->
  read_char (Reader true false a it its arrs) c
  = Some (Reader true false a (if a then it ++ [c] else it) its arrs).
Proof.
  intros H92 H34. unfold read_char, keep. cbn [in_string escaped in_array item items arrays].
  apply N.eqb_neq in H92 as ->. by apply N.eqb_neq in H34 as ->.
Qed.

Lemma hex_digit_plain (d : N) : d < 16 -> hex_digit d <> 92 /\ hex_digit d <> 34.
Proof. unfold hex_digit. intros Hd. destruct (N.ltb_spec d 10); lia. Qed.

Lemma read_hex4 (a : bool) (it : str) (its : list str) (arrs : list (list str)) (n : N) :
  read_from (Reader true false a it its arrs) (hex4 n)
  = Some (Reader true false a (if a then it ++ hex4 n else it) its arrs).
Proof.
  unfold hex4. cbn [read_from].
  assert (H16 : forall x, x mod 16 < 16) by (intros x; by apply N.mod_lt).
  rewrite read_char_plain by (apply hex_digit_plain, H16).
  rewrite read_char_plain by (apply hex_digit_plain, H16).
  rewrite read_char_plain by (apply hex_digit_plain, H16).
  rewrite read_char_plain by (apply hex_digit_plain, H16).
  destruct a; [| done]. by rewrite <- !app_assoc.
Qed.

(** An escape of [json.dumps] with the letter [u]. *)
Lemma read_unicode_escape (a : bool) (it : str) (its : list str)
    (arrs : list (list str)) (n : N) :
  read_from (Reader true false a it its arrs) (bs ++ lit "u" ++ hex4 n)
  = Some (Reader true false a (if a then it ++ bs ++ lit "u" ++ hex4 n else it)
            its arrs).
Proof.
  change (bs ++ lit "u" ++ hex4 n) with (92 :: 117 :: hex4 n).
  destruct a;
    cbn [read_from read_char in_string escaped in_array item items arrays keep
         N.eqb Pos.eqb];
    rewrite read_hex4; [| done].
  by rewrite <- !app_assoc.
Qed.

(** What [json.dumps] writes for one code point of a string is kept and
    leaves the reader inside the string. *)
Lemma read_json_char (a : bool) (it : str) (its : list str)
    (arrs : list (list str)) (c : N) :
  read_from (Reader true false a it its arrs) (json_char c)
  = Some (Reader true false a (if a then it ++ json_char c else it) its arrs).
Proof.
  unfold json_char.
  destruct (N.eqb_spec c 34) as [-> | H34];
    [destruct a; cbn; by rewrite <- ?app_assoc |].
  destruct (N.eqb_spec c 92) as [-> | H92];
    [destruct a; cbn; by rewrite <- ?app_assoc |].
  destruct (N.eqb_spec c 10) as [-> | _];
    [destruct a; cbn; by rewrite <- ?app_assoc |].
  destruct (N.eqb_spec c 13) as [-> | _];
    [destruct a; cbn; by rewrite <- ?app_assoc |].
  destruct (N.eqb_spec c 9) as [-> | _];
    [destruct a; cbn; by rewrite <- ?app_assoc |].
  destruct (N.eqb_spec c 8) as [-> | _];
    [destruct a; cbn; by rewrite <- ?app_assoc |].
  destruct (N.eqb_spec c 12) as [-> | _];
    [destruct a; cbn; by rewrite <- ?app_assoc |].
  destruct ((32 <=? c) && (c <=? 126)).
  { cbn [read_from]. by rewrite read_char_plain. }
  destruct (0x10000 <=? c).
  - match goal with
    | |- context [hex4 ?x ++ bs ++ lit "u" ++ hex4 ?y] =>
        change (bs ++ lit "u" ++ hex4 x ++ bs ++ lit "u" ++ hex4 y)
          with ((bs ++ lit "u" ++ hex4 x) ++ (bs ++ lit "u" ++ hex4 y))
    end.
    rewrite read_from_app, read_unicode_escape, read_unicode_escape.
    destruct a; [| done]. by rewrite <- !app_assoc.
  - apply read_unicode_escape.
Qed.

Lemma read_json_chars (a : bool) (it : str) (its : list str)
    (arrs : list (list str)) (s : str) :
  read_from (Reader true false a it its arrs) (flat_map json_char s)
  = Some (Reader true false a (if a then it ++ flat_map json_char s else it)
            its arrs).
Proof.
  revert it. induction s as [|c s IH]; intros it.
  - destruct a; [by rewrite app_nil_r | done].
  - cbn [flat_map]. rewrite read_from_app, read_json_char, IH.
    destruct a; [| done]. by rewrite <- !app_assoc.
Qed.

(** A string of the literal is read from its opening quote to its closing
    quote, whatever it holds. *)
Lemma read_json_str (a : bool) (it : str) (its : list str)
    (arrs : list (list str)) (s : str) :
  read_from (Reader false false a it its arrs) (json_str s)
  = Some (Reader false false a (if a then it ++ json_str s else it) its arrs).
Proof.
  unfold json_str, dq. cbn [app read_from].
  destruct a;
    cbn [read_char in_string escaped in_array item items arrays keep N.eqb Pos.eqb];
    rewrite read_from_app, read_json_chars;
    cbn [read_from read_char in_string escaped in_array item items arrays keep
         N.eqb Pos.eqb]; [| done].
  by rewrite <- !app_assoc.
Qed.

Lemma number_char_plain (c : N) :
  number_char c = true ->
  c <> 34 /\ c <> 91 /\ c <> 93 /\ c <> 44 /\ is_json_space c = false.
Proof.
  unfold number_char, is_letter, is_json_space. intros H.
  repeat match goal with
  | H : (_ || _) = true |- _ => apply orb_true_iff in H as [H | H]
  | H : (_ && _) = true |- _ => apply andb_true_iff in H as [? ?]
  | H : (_ <=? _) = true |- _ => apply N.leb_le in H
  | H : (_ =? _) = true |- _ => apply N.eqb_eq in H
  end;
  (split_and!; [lia .. |]);
  repeat (apply orb_false_iff; split); apply N.eqb_neq; lia.
Qed.

(** The text of a number is kept as it is. *)
Lemma read_number (it : str) (its : list str) (arrs : list (list str)) (t : str) :
  forallb number_char t = true ->
  read_from (Reader false false true it its arrs) t
  = Some (Reader false false true (it ++ t) its arrs).
Proof.
  revert it. induction t as [|c t IH]; intros it Ht.
  - by rewrite app_nil_r.
  - cbn [forallb] in Ht. apply andb_true_iff in Ht as [Hc Ht].
    destruct (number_char_plain c Hc) as (H34 & H91 & H93 & H44 & Hsp).
    cbn [read_from]. unfold read_char at 1.
    cbn [in_string escaped in_array item items arrays keep].
    apply N.eqb_neq in H34 as ->. apply N.eqb_neq in H91 as ->.
    apply N.eqb_neq in H93 as ->. apply N.eqb_neq in H44 as ->.
    rewrite Hsp, IH by done. by rewrite <- app_assoc.
Qed.

Lemma read_item (its : list str) (arrs : list (list str)) (t : str) :
  item_text t ->
  t <> [] /\
  read_from (Reader false false true [] its arrs) t
  = Some (Reader false false true t its arrs).
Proof.
  intros [[s ->] | Ht].
  - split; [done | apply read_json_str].
  - destruct t as [|c t]; [done |]. split; [done |].
    by apply (read_number []).
Qed.

Lemma read_items (its : list str) (arrs : list (list str)) (ts : list str) :
  Forall item_text ts -> (ts = [] -> its = []) ->
  read_from (Reader false false true [] its arrs) (join (lit ", ") ts ++ lit "]")
  = Some (Reader false false false [] [] (arrs ++ [its ++ ts])).
Proof.
  revert its. induction ts as [|t ts IH]; intros its Hts Hnil.
  - rewrite (Hnil eq_refl). reflexivity.
  - apply Forall_cons in Hts as [Ht Hts].
    destruct (read_item its arrs t Ht) as [Hne Hread].
    destruct ts as [|t' ts].
    + cbn [join]. rewrite read_from_app, Hread.
      destruct t as [|c t]; [done |]. reflexivity.
    + change (join (lit ", ") (t :: t' :: ts))
        with (t ++ lit ", " ++ join (lit ", ") (t' :: ts)).
      rewrite <- !app_assoc, read_from_app, Hread.
      destruct t as [|c t]; [done |].
      change (lit ", " ++ join (lit ", ") (t' :: ts) ++ lit "]")
        with (44 :: 32 :: (join (lit ", ") (t' :: ts) ++ lit "]")).
      cbn [read_from read_char in_string escaped in_array item items arrays
           is_json_space N.eqb Pos.eqb orb].
      rewrite IH by done. by rewrite <- app_assoc.
Qed.

(** An array of the literal is read back as the list of its items. *)
Lemma read_json_list (arrs : list (list str)) (ts : list str) :
  Forall item_text ts ->
  read_from (Reader false false false [] [] arrs) (json_list ts)
  = Some (Reader false false false [] [] (arrs ++ [ts])).
Proof.
  intros Hts. unfold json_list.
  change (lit "[" ++ join (lit ", ") ts ++ lit "]")
    with (91 :: (join (lit ", ") ts ++ lit "]")).
  cbn [read_from read_char in_string escaped in_array item items arrays
       N.eqb Pos.eqb].
  by rewrite read_items.
Qed.

(** The literal of the chart data is read back as three arrays: the
    labels as strings, and the two series as numbers. *)
Lemma read_json_dumps (cd : chart_data) :
  Forall (fun x => number_text (json_float x) = true)
    (cpu_values cd ++ mem_values cd) ->
  read_arrays (json_dumps cd)
  = Some [json_str <$> labels cd; json_float <$> cpu_values cd;
          json_float <$> mem_values cd].
Proof.
  intros [Hcpu Hmem]%Forall_app.
  assert (Hstr : Forall item_text (json_str <$> labels cd)).
  { apply Forall_fmap, Forall_forall. intros s _. left. by exists s. }
  assert (Hnum : forall xs, Forall (fun x => number_text (json_float x) = true) xs ->
                            Forall item_text (json_float <$> xs)).
  { intros xs Hxs. apply Forall_fmap. eapply Forall_impl; [exact Hxs |].
    intros x Hx. by right. }
  assert (H : read_from reader_start (json_dumps cd)
              = Some (Reader false false false [] []
                        [json_str <$> labels cd; json_float <$> cpu_values cd;
                         json_float <$> mem_values cd])).
  { unfold json_dumps, reader_start.
    eapply read_from_chain; [reflexivity |].
    eapply read_from_chain; [apply read_json_str |].
    eapply read_from_chain; [reflexivity |].
    eapply read_from_chain; [apply read_json_list, Hstr |].
    eapply read_from_chain; [reflexivity |].
    eapply read_from_chain; [apply read_json_str |].
    eapply read_from_chain; [reflexivity |].
    eapply read_from_chain; [apply read_json_list, Hnum, Hcpu |].
    eapply read_from_chain; [reflexivity |].
    eapply read_from_chain; [apply read_json_str |].
    eapply read_from_chain; [reflexivity |].
    eapply read_from_chain; [apply read_json_list, Hnum, Hmem |].
    reflexivity. }
  unfold read_arrays. by rewrite H.
Qed.

(** C7: the report holds, after [const data = ], the literal of the chart
    data; the labels, the cpu series and the mem series of the chart data
    have the same length, and so have the three arrays of the literal: read
    back, it gives the labels as strings and the two series as numbers, item
    by item (given that the floats of the series are printed as numbers). *)
Theorem chart_arrays_same_length (rows : list row) (raw : str) (pid : option Z)
    (interval count : Z) (title doc : str) :
  build_html rows raw pid interval count title = Ok doc ->
  exists cd before,
    aggregate rows = Ok cd /\
    doc = before ++ lit "const data = " ++ json_dumps cd ++ tpl_close /\
    length (labels cd) = length (cpu_values cd) /\
    length (cpu_values cd) = length (mem_values cd) /\
    (Forall (fun x => number_text (json_float x) = true)
       (cpu_values cd ++ mem_values cd) ->
     exists ls cs ms,
       read_arrays (json_dumps cd) = Some [ls; cs; ms] /\
       ls = json_str <$> labels cd /\
       cs = json_float <$> cpu_values cd /\
       ms = json_float <$> mem_values cd /\
       length ls = length cs /\ length cs = length ms).
Proof.
  intros (cd & cells & Hcd & _ & ->)%build_html_inv.
  assert (Hlen : length (labels cd) = length (cpu_values cd) /\
                 length (cpu_values cd) = length (mem_values cd)).
  { rewrite aggregate_points in Hcd.
    destruct (for_each row_values rows) as [vs|]; [| done].
    injection Hcd as <-. cbn. by rewrite !length_fmap. }
  destruct Hlen as [Hlc Hcm].
  exists cd,
    (tpl_open ++ html_escape title ++ tpl_head ++ html_escape title
     ++ tpl_intro ++ target pid ++ tpl_every ++ str_of_int interval
     ++ tpl_for ++ str_of_int count ++ tpl_table ++ join nl cells
     ++ tpl_pre ++ html_escape raw
     ++ join nl [lit "</pre>"; []; lit "    <script>"; lit "        "]).
  split_and!; [done | | done | done |].
  - unfold page.
    change tpl_script
      with (join nl [lit "</pre>"; []; lit "    <script>"; lit "        "]
            ++ lit "const data = ").
    generalize (join nl [lit "</pre>"; []; lit "    <script>"; lit "        "]).
    intros script. by rewrite <- !app_assoc.
  - intros Hnum.
    exists (json_str <$> labels cd), (json_float <$> cpu_values cd),
           (json_float <$> mem_values cd).
    split_and!; [by apply read_json_dumps | done .. | |]; by rewrite !length_fmap.
Qed.

(** ** Float addition *)

Lemma fadd_comm (x y : float) : fadd x y = fadd y x.
Proof.
  unfold fadd, SFadd.
  destruct x as [sx | sx | | sx mx ex], y as [sy | sy | | sy my ey];
    try reflexivity; try (by destruct sx, sy).
  by rewrite (Z.min_comm ey ex), Z.add_comm.
Qed.

(** Adding to [0.0] changes nothing but the sign of a negative zero. *)
Lemma fadd_zero_l (x : float) :
  fadd fzero x = match x with S754_zero _ => fzero | _ => x end.
Proof. destruct x as [[] | | |]; reflexivity. Qed.

Lemma fsum_pair (x y : float) : fsum [x; y] = fsum [y; x].
Proof.
  unfold fsum. cbn [foldl]. rewrite !fadd_zero_l.
  destruct x as [sx | sx | | sx mx ex], y as [sy | sy | | sy my ey];
    try reflexivity; try (by destruct sx); try (by destruct sy);
    try (by destruct sx, sy).
  apply fadd_comm.
Qed.

(** ** Exchanging the two records of a time stamp *)

Lemma for_each_app_inv {A B} (f : A -> result B) (l1 l2 : list A) (ys : list B) :
  for_each f (l1 ++ l2) = Ok ys ->
  exists ys1 ys2, for_each f l1 = Ok ys1 /\ for_each f l2 = Ok ys2 /\ ys = ys1 ++ ys2.
Proof.
  rewrite for_each_app.
  destruct (for_each f l1) as [ys1|]; cbn [mbind result_bind]; [| done].
  destruct (for_each f l2) as [ys2|]; cbn [mbind result_bind]; [| done].
  intros [= <-]. by exists ys1, ys2.
Qed.

Lemma for_each_other_times (l : list row) (vs : list sample) (t : str) :
  for_each row_values l = Ok vs ->
  (forall r, r ∈ l -> r !! lit "time" <> Some t) ->
  group t vs = [].
Proof.
  intros Hvs Hl. apply group_absent. rewrite <- (for_each_times l vs Hvs).
  intros (r & Hr & Ht)%list_elem_of_omap. by apply (Hl r).
Qed.

Lemma group_swap (t t' : str) (v0 v1 v2 : list sample) (a b : sample) :
  s_time a = t -> s_time b = t ->
  group t v0 = [] -> group t v1 = [] -> group t v2 = [] ->
  (group t' (v0 ++ a :: v1 ++ b :: v2) = [a; b] /\
   group t' (v0 ++ b :: v1 ++ a :: v2) = [b; a]) \/
  group t' (v0 ++ a :: v1 ++ b :: v2) = group t' (v0 ++ b :: v1 ++ a :: v2).
Proof.
  intros Ha Hb H0 H1 H2. unfold group in *.
  destruct (decide (t' = t)) as [-> | Hne].
  - left. rewrite !filter_app, !filter_cons, !filter_app, !filter_cons.
    rewrite H0, H1, H2. by rewrite !decide_True by done.
  - right. rewrite !filter_app, !filter_cons, !filter_app, !filter_cons.
    by rewrite !decide_False by congruence.
Qed.

Lemma aggregated_points_swap (t : str) (v0 v1 v2 : list sample) (a b : sample) :
  s_time a = t -> s_time b = t ->
  group t v0 = [] -> group t v1 = [] -> group t v2 = [] ->
  aggregated_points (v0 ++ a :: v1 ++ b :: v2)
  = aggregated_points (v0 ++ b :: v1 ++ a :: v2).
Proof.
  intros Ha Hb H0 H1 H2. unfold aggregated_points.
  assert (Htimes : s_time <$> v0 ++ a :: v1 ++ b :: v2
                   = s_time <$> v0 ++ b :: v1 ++ a :: v2).
  { rewrite !fmap_app, !fmap_cons, !fmap_app, !fmap_cons. by rewrite Ha, Hb. }
  rewrite Htimes. cbn zeta. f_equal.
  - apply list_fmap_ext. intros _ t' _.
    destruct (group_swap t t' v0 v1 v2 a b Ha Hb H0 H1 H2) as [[-> ->] | ->];
      [apply fsum_pair | done].
  - apply list_fmap_ext. intros _ t' _.
    destruct (group_swap t t' v0 v1 v2 a b Ha Hb H0 H1 H2) as [[-> ->] | ->];
      [apply fsum_pair | done].
Qed.

(** C8, as it holds: when exactly two records carry a time stamp,
    exchanging them leaves the whole result of the aggregation, labels and
    sums, as it is. *)
Theorem pair_order_independent (before between after : list row)
    (r1 r2 : row) (t : str) (cd : chart_data) :
  r1 !! lit "time" = Some t -> r2 !! lit "time" = Some t ->
  (forall r, r ∈ before ++ between ++ after -> r !! lit "time" <> Some t) ->
  aggregate (before ++ r1 :: between ++ r2 :: after) = Ok cd ->
  aggregate (before ++ r2 :: between ++ r1 :: after) = Ok cd.
Proof.
  intros Ht1 Ht2 Hother. rewrite !aggregate_points.
  destruct (for_each row_values (before ++ r1 :: between ++ r2 :: after))
    as [vs|] eqn:Hvs; cbn [mbind result_bind]; [| done].
  intros [= <-].
  apply for_each_app_inv in Hvs as (v0 & vs1 & H0 & Hvs & ->).
  apply for_each_cons_inv in Hvs as (a & vs2 & Ha & Hvs & ->).
  apply for_each_app_inv in Hvs as (v1 & vs3 & H1 & Hvs & ->).
  apply for_each_cons_inv in Hvs as (b & v2 & Hb & H2 & ->).
  assert (Hswap : for_each row_values (before ++ r2 :: between ++ r1 :: after)
                  = Ok (v0 ++ b :: v1 ++ a :: v2)).
  { rewrite for_each_app, H0. cbn [mbind result_bind for_each]. rewrite Hb.
    cbn [mbind result_bind]. rewrite for_each_app, H1.
    cbn [mbind result_bind for_each]. rewrite Ha, H2. done. }
  rewrite Hswap. cbn [mbind result_bind]. f_equal. symmetry.
  apply (aggregated_points_swap t).
  - apply row_values_time in Ha. congruence.
  - apply row_values_time in Hb. congruence.
  - apply (for_each_other_times before v0 t H0).
    intros r Hr. apply Hother. rewrite !elem_of_app. by left.
  - apply (for_each_other_times between v1 t H1).
    intros r Hr. apply Hother. rewrite !elem_of_app. right. by left.
  - apply (for_each_other_times after v2 t H2).
    intros r Hr. apply Hother. rewrite !elem_of_app. right. by right.
Qed.

(** ** Escaping *)

Lemma html_escape_app (s1 s2 : str) :
  html_escape (s1 ++ s2) = html_escape s1 ++ html_escape s2.
Proof. unfold html_escape, replace_char. by rewrite !flat_map_app. Qed.

Lemma html_escape_one (c : N) : html_escape [c] = entity c.
Proof.
  unfold entity.
  destruct (N.eqb_spec c 38) as [-> | H1]; [reflexivity |].
  destruct (N.eqb_spec c 60) as [-> | H2]; [reflexivity |].
  destruct (N.eqb_spec c 62) as [-> | H3]; [reflexivity |].
  destruct (N.eqb_spec c 34) as [-> | H4]; [reflexivity |].
  destruct (N.eqb_spec c 39) as [-> | H5]; [reflexivity |].
  apply N.eqb_neq in H1, H2, H3, H4, H5.
  unfold html_escape, replace_char. cbn [flat_map app].
  rewrite H1. cbn [flat_map app]. rewrite H2. cbn [flat_map app].
  rewrite H3. cbn [flat_map app]. rewrite H4. cbn [flat_map app].
  by rewrite H5.
Qed.

Lemma html_escape_entities (s : str) : html_escape s = flat_map entity s.
Proof.
  induction s as [|c s IH]; [done |].
  change (c :: s) with ([c] ++ s).
  by rewrite html_escape_app, html_escape_one, IH.
Qed.






Lemma for_each_Forall2 {A B} (f : A -> result B) (l : list A) (ys : list B) :
  for_each f l = Ok ys -> Forall2 (fun x y => f x = Ok y) l ys.
Proof.
  revert ys. induction l as [|x l IH]; intros ys.
  - intros [= <-]. constructor.
  - intros (y & ys' & Hy & Hys & ->)%for_each_cons_inv.
    constructor; [done | by apply IH].
Qed.


(** ** Decimal numerals *)

Lemma lit_String (a : ascii) (s : string) : lit (String a s) = N_of_ascii a :: lit s.
Proof. reflexivity. Qed.

Lemma digits_value_from (a : Z) (ds : str) :
  foldl (fun a c => (10 * a + (Z.of_N c - 48))%Z) a ds
  = (a * 10 ^ Z.of_nat (length ds) + digits_value ds)%Z.
Proof.
  unfold digits_value. revert a. induction ds as [|d ds IH]; intros a.
  - cbn [foldl length]. change (Z.of_nat 0) with 0%Z. rewrite Z.pow_0_r. lia.
  - cbn [foldl]. rewrite IH, (IH (10 * 0 + _)%Z).
    rewrite length_cons, Nat2Z.inj_succ, Z.pow_succ_r by lia. lia.
Qed.

Lemma pretty_N_char_code (d : N) : d < 10 -> N_of_ascii (pretty_N_char d) = 48 + d.
Proof.
  intros Hd.
  assert (d = 0 \/ d = 1 \/ d = 2 \/ d = 3 \/ d = 4 \/ d = 5 \/ d = 6 \/ d = 7
          \/ d = 8 \/ d = 9) as H by lia.
  repeat (destruct H as [-> | H]; [reflexivity |]). by subst.
Qed.

Lemma pretty_N_go_digits (x : N) (s : string) :
  Forall (fun c => is_digit c = true) (lit s) ->
  Forall (fun c => is_digit c = true) (lit (pretty_N_go x s)) /\
  digits_value (lit (pretty_N_go x s))
  = (Z.of_N x * 10 ^ Z.of_nat (length (lit s)) + digits_value (lit s))%Z.
Proof.
  revert s. induction (N.lt_wf_0 x) as [x _ IH]; intros s Hs.
  destruct (decide (x = 0)) as [-> | Hx].
  - rewrite pretty_N_go_0. split; [done |]. change (Z.of_N 0) with 0%Z. lia.
  - rewrite pretty_N_go_step by lia.
    pose proof (N.mod_lt x 10 ltac:(lia)) as Hd.
    assert (Hs' : Forall (fun c => is_digit c = true)
                    (lit (String (pretty_N_char (x `mod` 10)) s))).
    { rewrite lit_String, pretty_N_char_code by done. constructor; [| done].
      unfold is_digit. clear -Hd. generalize dependent (x `mod` 10). intros d Hd.
      apply andb_true_iff. split; apply N.leb_le; lia. }
    destruct (IH (x `div` 10) ltac:(apply N.div_lt; lia) _ Hs') as [Hall Hval].
    split; [done |]. rewrite Hval, lit_String, pretty_N_char_code by done.
    unfold digits_value at 1. cbn [foldl]. rewrite digits_value_from.
    rewrite length_cons, Nat2Z.inj_succ, Z.pow_succ_r by lia.
    pose proof (N.div_mod x 10 ltac:(lia)) as Hdm.
    rewrite N2Z.inj_div. rewrite N2Z.inj_add. rewrite N2Z.inj_mod.
    change (Z.of_N 10) with 10%Z. change (Z.of_N 48) with 48%Z.
    pose proof (Z.div_mod (Z.of_N x) 10 ltac:(lia)). nia.
Qed.

(** [str(n)] is the decimal numeral of [n]: digits only, read back as [n],
    when [n] is not negative, and a minus sign before the numeral of its
    opposite when it is. *)
Lemma str_of_int_decimal (n : Z) :
  (0 <= n)%Z ->
  Forall (fun c => is_digit c = true) (str_of_int n) /\
  digits_value (str_of_int n) = n.
Proof.
  intros Hn. unfold str_of_int. destruct n as [|p|p]; [split; [by repeat constructor | reflexivity] | | lia].
  change (pretty (Z.pos p)) with (pretty_N_go (N.pos p) "").
  destruct (pretty_N_go_digits (N.pos p) "" ltac:(constructor)) as [Hall Hval].
  split; [done |]. rewrite Hval. cbn. lia.
Qed.

Lemma str_of_int_negative (n : Z) :
  (n < 0)%Z -> str_of_int n = lit "-" ++ str_of_int (- n).
Proof.
  intros Hn. destruct n as [|p|p]; [lia | lia |].
  unfold str_of_int. change (pretty (Z.neg p)) with ("-" +:+ pretty (Z.pos p)).
  reflexivity.
Qed.

(** ** The sampler and the driver *)

(** C9: the command line is pidstat, the flags -durh, -p with the selector
    (ALL without a pid, else the pid in decimal), then the interval and the
    count; the captured output is returned when the status is zero.  A
    status other than zero, and a command that could not be run, end it
    with an exception. *)
Theorem pidstat_command_line (w : world) (pid : option Z) (interval count : Z) :
  pidstat_command pid interval count
  = [ lit "pidstat"; lit "-durh"; lit "-p";
      match pid with None => lit "ALL" | Some p => str_of_int p end;
      str_of_int interval; str_of_int count ] /\
  (forall n, (0 <= n)%Z ->
     Forall (fun c => is_digit c = true) (str_of_int n) /\
     digits_value (str_of_int n) = n) /\
  (forall n, (n < 0)%Z -> str_of_int n = lit "-" ++ str_of_int (- n)) /\
  (forall out,
     subprocess_run w (pidstat_command pid interval count) = Ok (0%Z, out) ->
     run_pidstat w pid interval count = Ok out) /\
  (forall rc out,
     subprocess_run w (pidstat_command pid interval count) = Ok (rc, out) ->
     rc <> 0%Z ->
     run_pidstat w pid interval count
     = Raise (CalledProcessError rc (pidstat_command pid interval count))) /\
  (forall e,
     subprocess_run w (pidstat_command pid interval count) = Raise e ->
     run_pidstat w pid interval count = Raise e).
Proof.
  split_and!.
  - by destruct pid.
  - apply str_of_int_decimal.
  - apply str_of_int_negative.
  - intros out H. unfold run_pidstat. by rewrite H.
  - intros rc out H Hrc. unfold run_pidstat. rewrite H. cbn [mbind result_bind].
    by apply Z.eqb_neq in Hrc as ->.
  - intros e H. unfold run_pidstat. by rewrite H.
Qed.

Lemma main_raise (a : args) (w : world) (e : exn) :
  (pidstat_output ← run_pidstat w (arg_pid a) (arg_interval a) (arg_count a);
   match parse_pidstat_output pidstat_output with
   | [] => Raise (SystemExit NO_ROWS)
   | _ :: _ =>
       build_html (parse_pidstat_output pidstat_output) pidstat_output
         (arg_pid a) (arg_interval a) (arg_count a) (arg_title a)
   end) = Raise e ->
  main a w = (w, Raise e).
Proof. intros H. unfold main. cbv zeta. by rewrite H. Qed.

(** C2, as it holds: a status other than zero of pidstat ends the run with
    the exception of the failed command, and an output without records ends
    it with the exit message; so does any other exception that is raised
    before the report is written: that of a command that could not be run,
    and that of [build_html].  Each of them leaves the files and the printed
    lines as they were, and every exception ends the run with a status other
    than zero. *)
Theorem fatal_conditions (a : args) (w : world) :
  let command := pidstat_command (arg_pid a) (arg_interval a) (arg_count a) in
  (forall rc out,
     subprocess_run w command = Ok (rc, out) -> rc <> 0%Z ->
     main a w = (w, Raise (CalledProcessError rc command))) /\
  (forall out,
     subprocess_run w command = Ok (0%Z, out) -> parse_pidstat_output out = [] ->
     main a w = (w, Raise (SystemExit NO_ROWS))) /\
  (forall e, subprocess_run w command = Raise e -> main a w = (w, Raise e)) /\
  (forall out e,
     subprocess_run w command = Ok (0%Z, out) -> parse_pidstat_output out <> [] ->
     build_html (parse_pidstat_output out) out (arg_pid a) (arg_interval a)
       (arg_count a) (arg_title a) = Raise e ->
     main a w = (w, Raise e)) /\
  (forall e, (main a w).2 = Raise e -> exit_status (main a w).2 <> 0%Z) /\
  ((main a w).1 <> w ->
   exists out doc,
     subprocess_run w command = Ok (0%Z, out) /\
     parse_pidstat_output out <> [] /\
     build_html (parse_pidstat_output out) out (arg_pid a) (arg_interval a)
       (arg_count a) (arg_title a) = Ok doc /\
     open_error w (arg_output a) = None).
Proof.
  intros command. split_and!.
  - intros rc out Hrun Hrc. apply main_raise. unfold run_pidstat. fold command.
    rewrite Hrun. cbn [mbind result_bind]. by apply Z.eqb_neq in Hrc as ->.
  - intros out Hrun Hrows. apply main_raise. unfold run_pidstat. fold command.
    rewrite Hrun. cbn [Z.eqb mbind result_bind]. by rewrite Hrows.
  - intros e Hrun. apply main_raise. unfold run_pidstat. fold command.
    by rewrite Hrun.
  - intros out e Hrun Hrows Hb. apply main_raise. unfold run_pidstat. fold command.
    rewrite Hrun. cbn [Z.eqb mbind result_bind].
    by destruct (parse_pidstat_output out).
  - intros e ->. discriminate.
  - intros Hw. unfold main, run_pidstat in Hw. fold command in Hw. cbv zeta in Hw.
    destruct (subprocess_run w command) as [[rc out] | e] eqn:Hrun;
      cbn [mbind result_bind fst] in Hw; [| done].
    destruct (Z.eqb_spec rc 0) as [-> | Hrc]; cbn [mbind result_bind fst] in Hw; [| done].
    destruct (parse_pidstat_output out) as [|r rows] eqn:Hrows; [done |].
    destruct (build_html (r :: rows) out _ _ _ _) as [doc | e] eqn:Hb; [| done].
    exists out, doc. rewrite Hrows. split_and!; [done .. |].
    unfold write_report in Hw.
    by destruct (open_error w (arg_output a)).
Qed.

Lemma build_html_raise (rows : list row) (raw : str) (pid : option Z)
    (interval count : Z) (title : str) (e : exn) :
  for_each row_values rows = Raise e ->
  build_html rows raw pid interval count title = Raise e.
Proof. intros H. unfold build_html. by rewrite aggregate_points, H. Qed.

(** C10: the numbers of a record are converted without a guard; a line
    with 17 tokens whose cpu or mem token is no number gives a record, and
    the report of this record ends with the [ValueError] of the conversion,
    which then ends the run although pidstat succeeded and records were
    parsed. *)
Theorem float_conversion_unguarded :
  (forall rows raw pid interval count title e,
     for_each row_values rows = Raise e ->
     build_html rows raw pid interval count title = Raise e) /\
  (forall line : str, line = comma_line \/ line = comma_mem_line ->
   exists (r : row) (token : str),
     (17 <= length (split (strip line)))%nat /\
     parse_pidstat_output line = [r] /\
     (r !! lit "cpu_pct" = Some token \/ r !! lit "mem_pct" = Some token) /\
     py_float token = Raise (ValueError token) /\
     (forall raw pid interval count title,
        build_html [r] raw pid interval count title = Raise (ValueError token)) /\
     (forall a w,
        subprocess_run w (pidstat_command (arg_pid a) (arg_interval a) (arg_count a))
        = Ok (0%Z, line) ->
        main a w = (w, Raise (ValueError token)))).
Proof.
  split; [apply build_html_raise |].
  assert (Hmain : forall line r e,
    parse_pidstat_output line = [r] -> for_each row_values [r] = Raise e ->
    forall a w,
      subprocess_run w (pidstat_command (arg_pid a) (arg_interval a) (arg_count a))
      = Ok (0%Z, line) -> main a w = (w, Raise e)).
  { intros line r e Hr He a w Hrun. apply main_raise.
    unfold run_pidstat. rewrite Hrun. cbn [Z.eqb mbind result_bind].
    rewrite Hr. by apply build_html_raise. }
  intros line [-> | ->].
  - exists (dict (zip TABLE_COLUMNS (split (strip comma_line)))), (lit "10,00").
    split_and!.
    + vm_compute. lia.
    + compute_done.
    + left. vm_compute. reflexivity.
    + vm_compute. reflexivity.
    + intros. apply build_html_raise. vm_compute. reflexivity.
    + apply (Hmain comma_line
               (dict (zip TABLE_COLUMNS (split (strip comma_line)))));
        [compute_done | vm_compute; reflexivity].
  - exists (dict (zip TABLE_COLUMNS (split (strip comma_mem_line)))), (lit "1,50").
    split_and!.
    + vm_compute. lia.
    + compute_done.
    + right. vm_compute. reflexivity.
    + vm_compute. reflexivity.
    + intros. apply build_html_raise. vm_compute. reflexivity.
    + apply (Hmain comma_mem_line
               (dict (zip TABLE_COLUMNS (split (strip comma_mem_line)))));
        [compute_done | vm_compute; reflexivity].
Qed.

(** * Further properties *)

(** ** Lines and tokens *)

Lemma splitlines_from_line (cur l rest : str) :
  Forall (fun c => is_linebreak c = false) l ->
  splitlines_from cur (l ++ nl ++ rest) = (cur ++ l) :: splitlines_from [] rest.
Proof.
  intros Hl. revert cur. induction Hl as [|c l Hc _ IH]; intros cur.
  - rewrite app_nil_r. cbn [app nl splitlines_from].
    change (is_linebreak 10) with true. cbn match. by destruct rest.
  - cbn [app splitlines_from]. rewrite Hc, IH. by rewrite <- app_assoc.
Qed.

Lemma splitlines_from_last (cur l : str) :
  Forall (fun c => is_linebreak c = false) l ->
  splitlines_from cur l = match cur ++ l with [] => [] | _ => [cur ++ l] end.
Proof.
  intros Hl. revert cur. induction Hl as [|c l Hc _ IH]; intros cur.
  - by rewrite app_nil_r.
  - cbn [splitlines_from]. rewrite Hc, IH. by rewrite <- app_assoc.
Qed.

(** X1: a text that begins with a line and a line feed gives the records of
    this line followed by those of the rest, so the lines of a text joined
    by line feeds are parsed one by one, in their order. *)
Theorem parse_line_by_line (ls : list str) :
  Forall (Forall (fun c => is_linebreak c = false)) ls ->
  (forall l rest, l ∈ ls ->
     parse_pidstat_output (l ++ nl ++ rest)
     = parse_line [] l ++ parse_pidstat_output rest) /\
  parse_pidstat_output (join nl ls) = flat_map (parse_line []) ls.
Proof.
  intros Hls.
  assert (Hcons : forall l rest, Forall (fun c => is_linebreak c = false) l ->
    parse_pidstat_output (l ++ nl ++ rest)
    = parse_line [] l ++ parse_pidstat_output rest).
  { intros l rest Hl. rewrite !parse_pidstat_output_lines. unfold splitlines.
    by rewrite (splitlines_from_line [] l rest Hl). }
  split.
  - intros l rest Hin. apply Hcons. by eapply Forall_forall in Hls.
  - induction Hls as [|l ls Hl Hls IH]; [done |].
    destruct ls as [|l' ls].
    + cbn [join flat_map]. rewrite app_nil_r, parse_pidstat_output_lines.
      unfold splitlines. rewrite (splitlines_from_last [] l Hl).
      cbn [app]. destruct l; [done |]. cbn [flat_map]. by rewrite app_nil_r.
    + change (join nl (l :: l' :: ls)) with (l ++ nl ++ join nl (l' :: ls)).
      by rewrite (Hcons l _ Hl), IH.
Qed.

Lemma split_from_tokens (cur s : str) :
  Forall (fun c => isspace c = false) cur ->
  Forall (fun tok : str => tok <> [] /\ Forall (fun c => isspace c = false) tok)
    (split_from cur s).
Proof.
  revert cur. induction s as [|c s IH]; intros cur Hcur; cbn [split_from].
  - destruct cur as [|a cur]; [constructor |]. by constructor.
  - destruct (isspace c) eqn:Hc.
    + destruct cur as [|a cur]; [by apply IH |].
      constructor; [done | by apply IH].
    + apply IH. apply Forall_app. by repeat constructor.
Qed.

Lemma split_from_lstrip (s : str) : split_from [] (lstrip s) = split_from [] s.
Proof.
  induction s as [|c s IH]; [done |]. cbn [lstrip].
  destruct (isspace c) eqn:Hc; [| done].
  rewrite IH. cbn [split_from]. by rewrite Hc.
Qed.

Lemma split_from_spaces (cur s w : str) :
  Forall (fun c => isspace c = true) w ->
  split_from cur (s ++ w) = split_from cur s.
Proof.
  intros Hw. revert cur. induction s as [|c s IH]; intros cur.
  - cbn [app]. induction Hw as [|c w Hc _ IHw] in cur |- *; [done |].
    cbn [split_from]. rewrite Hc. destruct cur; rewrite IHw; by destruct w.
  - cbn [app split_from]. destruct (isspace c); [destruct cur |]; by rewrite IH.
Qed.

Lemma lstrip_spaces (s : str) :
  exists w, s = w ++ lstrip s /\ Forall (fun c => isspace c = true) w.
Proof.
  induction s as [|c s (w & Hs & Hw)]; [by exists [] |].
  cbn [lstrip]. destruct (isspace c) eqn:Hc.
  - exists (c :: w). split; [by rewrite Hs at 1 | by constructor].
  - by exists [].
Qed.

(** X2: the tokens of a line are those of the stripped line: stripping
    matters for the tests on blank and marker lines only.  A token is never
    empty and holds no space. *)
Theorem split_strip (s : str) :
  split (strip s) = split s /\
  Forall (fun tok : str => tok <> [] /\ Forall (fun c => isspace c = false) tok)
    (split s).
Proof.
  split; [| by apply split_from_tokens].
  unfold split, strip, rstrip.
  rewrite <- (split_from_lstrip s).
  destruct (lstrip_spaces (rev (lstrip s))) as (w & Hs & Hw).
  apply (f_equal (@rev N)) in Hs. rewrite rev_involutive, rev_app_distr in Hs.
  rewrite Hs at 2. symmetry. apply split_from_spaces.
  apply Forall_forall. intros c Hc. rewrite list_elem_of_In in Hc.
  apply in_rev in Hc. rewrite <- list_elem_of_In in Hc.
  by eapply Forall_forall in Hw.
Qed.

(** ** The records of the parser *)

(** What a line gives: nothing, or the record of its tokens. *)
Lemma parse_line_cases (line : str) :
  let parts := split (strip line) in
  (parse_line [] line = [] /\
   (strip line = [] \/ lit "Linux" `prefix_of` strip line
    \/ lit "#" `prefix_of` strip line \/ lit "Average:" `prefix_of` strip line
    \/ (length parts < 17)%nat)) \/
  (parse_line [] line = [dict (zip TABLE_COLUMNS parts)] /\
   (17 <= length parts)%nat).
Proof.
  intros parts. unfold parse_line. fold parts.
  destruct (bool_decide (strip line = [])) eqn:Hb; cbn [orb].
  { left. split; [done |]. left. by apply bool_decide_eq_true in Hb. }
  destruct (startswith_any (strip line) MARKERS) eqn:Hm.
  { left. split; [done |]. apply startswith_any_markers in Hm. tauto. }
  change (length TABLE_COLUMNS) with 17%nat.
  destruct (length parts <? 17)%nat eqn:Hlen.
  - left. split; [done |]. apply Nat.ltb_lt in Hlen. tauto.
  - right. split; [done |]. by apply Nat.ltb_ge in Hlen.
Qed.

Lemma parsed_record (stdout : str) (r : row) :
  r ∈ parse_pidstat_output stdout ->
  exists line, line ∈ splitlines stdout /\
    r = dict (zip TABLE_COLUMNS (split (strip line))) /\
    (17 <= length (split (strip line)))%nat.
Proof.
  rewrite parse_pidstat_output_lines, list_elem_of_In, in_flat_map.
  intros (line & Hline & Hr). exists line.
  split; [by apply list_elem_of_In |].
  destruct (parse_line_cases line) as [[Hnone _] | [Hone Hlen]].
  - rewrite Hnone in Hr. destruct Hr.
  - rewrite Hone in Hr. destruct Hr as [<- | []]. by split.
Qed.

(** X3: every record of the parser has the 17 column names as its keys, no
    other key, and each of its values is a token: not empty and without a
    space. *)
Theorem parsed_records_shape (stdout : str) (r : row) :
  r ∈ parse_pidstat_output stdout ->
  dom r = list_to_set TABLE_COLUMNS /\
  (forall col, col ∈ TABLE_COLUMNS -> is_Some (r !! col)) /\
  (forall col v, r !! col = Some v ->
     col ∈ TABLE_COLUMNS /\ v <> [] /\ Forall (fun c => isspace c = false) v).
Proof.
  intros (line & _ & -> & Hlen)%parsed_record.
  destruct (dict_columns (split (strip line)) Hlen) as [Hcol Hdom].
  split; [done |]. split.
  - intros col Hin. apply elem_of_dom. rewrite Hdom. by apply elem_of_list_to_set.
  - intros col v Hv.
    assert (Hin : col ∈ TABLE_COLUMNS).
    { apply (elem_of_list_to_set (C := gset (list N))). rewrite <- Hdom.
      apply elem_of_dom. by exists v. }
    split; [done |].
    apply list_elem_of_lookup_1 in Hin as [i Hi].
    rewrite (Hcol i col Hi) in Hv. apply list_elem_of_lookup_2 in Hv.
    destruct (split_strip (strip line)) as [_ Htok].
    by eapply Forall_forall in Htok.
Qed.

(** X4: tokens after the 17th are ignored: two lines that give a record and
    agree on their first 17 tokens give the same record. *)
Theorem extra_tokens_ignored (l1 l2 : str) :
  parse_line [] l1 <> [] -> parse_line [] l2 <> [] ->
  take 17 (split (strip l1)) = take 17 (split (strip l2)) ->
  parse_line [] l1 = parse_line [] l2.
Proof.
  intros H1 H2 Htake.
  destruct (parse_line_cases l1) as [[? _] | [-> _]]; [done |].
  destruct (parse_line_cases l2) as [[? _] | [-> _]]; [done |].
  assert (Hzip : zip TABLE_COLUMNS (split (strip l1))
                 = zip TABLE_COLUMNS (split (strip l2))); [| by rewrite Hzip].
  rewrite <- (zip_with_take_r pair TABLE_COLUMNS (split (strip l1))).
  rewrite <- (zip_with_take_r pair TABLE_COLUMNS (split (strip l2))).
  change (length TABLE_COLUMNS) with 17%nat. by rewrite Htake.
Qed.

(** X5: the parser gives no record exactly when each line is blank, begins
    with a marker or has fewer than 17 tokens. *)
Theorem no_record_iff (stdout : str) :
  parse_pidstat_output stdout = [] <->
  Forall (fun line =>
    strip line = [] \/ lit "Linux" `prefix_of` strip line
    \/ lit "#" `prefix_of` strip line \/ lit "Average:" `prefix_of` strip line
    \/ (length (split (strip line)) < 17)%nat) (splitlines stdout).
Proof.
  rewrite parse_pidstat_output_lines.
  induction (splitlines stdout) as [|line ls IH]; cbn [flat_map].
  - split; [constructor | done].
  - rewrite Forall_cons, <- IH. split.
    + intros [Hl Hls]%app_eq_nil. split; [| done].
      destruct (parse_line_cases line) as [[_ H] | [H _]]; [done |].
      rewrite H in Hl. discriminate Hl.
    + intros [Hl ->]. rewrite app_nil_r.
      destruct (parse_line_cases line) as [[H _] | [_ H]]; [done |].
      destruct Hl as [Hl | [Hl | [Hl | [Hl | Hl]]]].
      * unfold parse_line. by rewrite Hl.
      * by apply (marker_lines_excluded line); tauto.
      * by apply (marker_lines_excluded line); tauto.
      * by apply (marker_lines_excluded line); tauto.
      * lia.
Qed.

(** ** When build_html and main succeed *)

Lemma py_float_raise (s : str) (e : exn) :
  py_float s = Raise e -> e = ValueError s.
Proof.
  unfold py_float. destruct (_ ≫= _); [done | by intros [= <-]].
Qed.

Lemma for_each_Ok_iff {A B} (f : A -> result B) (l : list A) :
  (exists ys, for_each f l = Ok ys) <-> Forall (fun x => exists y, f x = Ok y) l.
Proof.
  induction l as [|x l IH]; cbn [for_each].
  - split; [constructor | by exists []].
  - rewrite Forall_cons, <- IH. split.
    + intros [ys H]. destruct (f x) as [y|]; cbn [mbind result_bind] in H; [| done].
      destruct (for_each f l) as [ys'|]; [| done]. split; [by exists y | by exists ys'].
    + intros [[y ->] [ys ->]]. by exists (y :: ys).
Qed.

Lemma for_each_raise {A B} (f : A -> result B) (l : list A) (e : exn) :
  for_each f l = Raise e -> exists x, x ∈ l /\ f x = Raise e.
Proof.
  induction l as [|x l IH]; cbn [for_each]; [done |].
  destruct (f x) as [y|e'] eqn:Hx; cbn [mbind result_bind].
  - destruct (for_each f l) as [ys|e']; cbn [mbind result_bind]; [done |].
    intros [= ->]. destruct (IH eq_refl) as (x' & Hin & Hx').
    exists x'. split; [apply elem_of_cons; by right | done].
  - intros [= ->]. exists x. split; [apply elem_of_cons; by left | done].
Qed.

Lemma row_values_Ok_iff (r : row) :
  (exists v, row_values r = Ok v) <-> readable r.
Proof.
  unfold row_values, readable, getitem.
  destruct (r !! lit "time") as [t|]; cbn [mbind result_bind].
  2:{ split; [by intros [? ?] | by intros [[? ?] _]]. }
  destruct (r !! lit "cpu_pct") as [c|]; cbn [mbind result_bind].
  2:{ split; [by intros [? ?] | by intros (_ & (? & ? & ? & _) & _)]. }
  destruct (py_float c) as [x|] eqn:Hc; cbn [mbind result_bind].
  2:{ split; [by intros [? ?] |]. intros (_ & (? & ? & [= <-] & H) & _). congruence. }
  destruct (r !! lit "mem_pct") as [m|]; cbn [mbind result_bind].
  2:{ split; [by intros [? ?] | by intros (_ & _ & (? & ? & ? & _))]. }
  destruct (py_float m) as [y|] eqn:Hm; cbn [mbind result_bind].
  2:{ split; [by intros [? ?] |]. intros (_ & _ & (? & ? & [= <-] & H)). congruence. }
  split; [| by eexists]. intros _. split_and!; [by exists t | by exists c, x | by exists m, y].
Qed.

Lemma row_values_raise (r : row) (e : exn) :
  row_values r = Raise e ->
  is_Some (r !! lit "time") -> is_Some (r !! lit "cpu_pct") ->
  is_Some (r !! lit "mem_pct") ->
  exists tok, (r !! lit "cpu_pct" = Some tok \/ r !! lit "mem_pct" = Some tok) /\
              py_float tok = Raise (ValueError tok) /\ e = ValueError tok.
Proof.
  intros H [t Ht] [c Hc] [m Hm]. revert H.
  unfold row_values, getitem. rewrite Ht, Hc, Hm. cbn [mbind result_bind].
  destruct (py_float c) as [x|e1] eqn:H1; cbn [mbind result_bind].
  - destruct (py_float m) as [y|e2] eqn:H2; cbn [mbind result_bind]; [done |].
    intros [= ->]. pose proof (py_float_raise m e H2) as ->. exists m.
    split_and!; [by right | done | done].
  - intros [= ->]. pose proof (py_float_raise c e H1) as ->. exists c.
    split_and!; [by left | done | done].
Qed.

Lemma row_cell_Ok_iff (r : row) :
  (exists cell, row_cell r = Ok cell) <->
  is_Some (r !! lit "time") /\ is_Some (r !! lit "pid") /\
  is_Some (r !! lit "cpu_pct") /\ is_Some (r !! lit "mem_pct").
Proof.
  unfold row_cell, getitem.
  destruct (r !! lit "time"); cbn [mbind result_bind];
    [| split; [by intros [? ?] | by intros ([? ?] & _)]].
  destruct (r !! lit "pid"); cbn [mbind result_bind];
    [| split; [by intros [? ?] | by intros (_ & [? ?] & _)]].
  destruct (r !! lit "cpu_pct"); cbn [mbind result_bind];
    [| split; [by intros [? ?] | by intros (_ & _ & [? ?] & _)]].
  destruct (r !! lit "mem_pct"); cbn [mbind result_bind];
    [| split; [by intros [? ?] | by intros (_ & _ & _ & [? ?])]].
  split; [by intros _; split_and!; eexists | by intros _; eexists].
Qed.

Lemma row_cell_raise (r : row) (e : exn) :
  row_cell r = Raise e -> readable r -> e = KeyError (lit "pid").
Proof.
  intros H ([t Ht] & (c & _ & Hc & _) & (m & _ & Hm & _)). revert H.
  unfold row_cell, getitem. rewrite Ht, Hc, Hm. cbn [mbind result_bind].
  destruct (r !! lit "pid"); cbn [mbind result_bind]; [done | by intros [= <-]].
Qed.

(** X6: build_html gives a report exactly when every record can be read and
    has a pid; without records it gives a report with an empty table and
    empty series.  When it raises, the exception is that of the first record
    that cannot be read, or else the missing pid. *)
Theorem build_html_succeeds_iff (rows : list row) (raw : str) (pid : option Z)
    (interval count : Z) (title : str) :
  ((exists doc, build_html rows raw pid interval count title = Ok doc) <->
   Forall (fun r => readable r /\ is_Some (r !! lit "pid")) rows) /\
  build_html [] raw pid interval count title
  = Ok (page title pid interval count [] (html_escape raw) (ChartData [] [] [])) /\
  (forall e, build_html rows raw pid interval count title = Raise e ->
     for_each row_values rows = Raise e \/
     ((exists vs, for_each row_values rows = Ok vs) /\ e = KeyError (lit "pid"))).
Proof.
  split_and!.
  - split.
    + intros [doc (cd & cells & Hcd & Hcells & _)%build_html_inv].
      rewrite aggregate_points in Hcd.
      destruct (for_each row_values rows) as [vs|] eqn:Hvs; [| done].
      assert (Hv : exists vs, for_each row_values rows = Ok vs) by by exists vs.
      assert (Hc : exists ys, for_each row_cell rows = Ok ys) by by exists cells.
      apply for_each_Ok_iff in Hv, Hc. rewrite Forall_forall in Hv, Hc.
      apply Forall_forall. intros r Hr.
      specialize (Hv r Hr). specialize (Hc r Hr).
      apply row_values_Ok_iff in Hv. apply row_cell_Ok_iff in Hc. tauto.
    + intros Hall. rewrite Forall_forall in Hall.
      assert (Hv : exists vs, for_each row_values rows = Ok vs).
      { apply for_each_Ok_iff, Forall_forall. intros r Hr.
        apply row_values_Ok_iff. by apply Hall. }
      assert (Hc : exists ys, for_each row_cell rows = Ok ys).
      { apply for_each_Ok_iff, Forall_forall. intros r Hr.
        apply row_cell_Ok_iff. destruct (Hall r Hr) as [(? & (? & ? & ? & _) & (? & ? & ? & _)) ?].
        split_and!; by eauto. }
      destruct Hv as [vs Hvs], Hc as [cells Hcells]. eexists.
      apply build_html_Ok; [| exact Hcells]. by rewrite aggregate_points, Hvs.
  - reflexivity.
  - intros e. unfold build_html. rewrite aggregate_points.
    destruct (for_each row_values rows) as [vs|e'] eqn:Hvs;
      cbn [mbind result_bind]; [| intros [= ->]; by left].
    destruct (for_each row_cell rows) as [cells|e'] eqn:Hcells;
      cbn [mbind result_bind]; [done |].
    intros [= ->]. right. split; [by exists vs |].
    apply for_each_raise in Hcells as (r & Hr & Hcell).
    apply (row_cell_raise r e Hcell). apply row_values_Ok_iff.
    assert (Hv : exists vs, for_each row_values rows = Ok vs) by by exists vs.
    apply for_each_Ok_iff in Hv. rewrite Forall_forall in Hv. by apply Hv.
Qed.

(** X7: on the records of the parser, which have all their keys,
    build_html can only fail on a number: its exception is the [ValueError]
    of a cpu or mem token of one of the records. *)
Theorem parsed_rows_fail_on_numbers_only (stdout raw : str) (pid : option Z)
    (interval count : Z) (title : str) (e : exn) :
  build_html (parse_pidstat_output stdout) raw pid interval count title = Raise e ->
  exists r tok,
    r ∈ parse_pidstat_output stdout /\
    (r !! lit "cpu_pct" = Some tok \/ r !! lit "mem_pct" = Some tok) /\
    py_float tok = Raise (ValueError tok) /\ e = ValueError tok.
Proof.
  intros He.
  assert (Hkeys : forall r col, r ∈ parse_pidstat_output stdout ->
            col ∈ TABLE_COLUMNS -> is_Some (r !! col)).
  { intros r col Hr. by apply (parsed_records_shape stdout r Hr). }
  destruct (build_html_succeeds_iff (parse_pidstat_output stdout) raw pid
              interval count title) as (_ & _ & Hraise).
  destruct (Hraise e He) as [Hvs | [[vs Hvs] ->]].
  - apply for_each_raise in Hvs as (r & Hr & Hrv).
    destruct (row_values_raise r e Hrv) as (tok & Htok & Hf & ->);
      [apply Hkeys; [done | compute_done] .. |].
    by exists r, tok.
  - exfalso. revert He. unfold build_html. rewrite aggregate_points, Hvs.
    cbn [mbind result_bind].
    assert (Hc : exists ys, for_each row_cell (parse_pidstat_output stdout) = Ok ys).
    { apply for_each_Ok_iff, Forall_forall. intros r Hr. apply row_cell_Ok_iff.
      split_and!; (apply Hkeys; [done | compute_done]). }
    destruct Hc as [cells ->]. done.
Qed.




(** ** More on the aggregation *)

Lemma filter_keep_all {A} (P : A -> Prop) `{!forall x, Decision (P x)} (l : list A) :
  (forall x, x ∈ l -> P x) -> filter P l = l.
Proof.
  induction l as [|x l IH]; intros Hall; [done |].
  rewrite filter_cons_True by (apply Hall, elem_of_cons; by left).
  rewrite IH; [done |]. intros y Hy. apply Hall, elem_of_cons. by right.
Qed.

Lemma first_seen_app_disjoint (l1 l2 : list str) :
  (forall x, x ∈ l1 -> x ∉ l2) ->
  first_seen (l1 ++ l2) = first_seen l1 ++ first_seen l2.
Proof.
  induction l1 as [|x l1 IH]; intros Hdis; [done |].
  cbn [app first_seen].
  rewrite IH by (intros y Hy; apply Hdis, elem_of_cons; by right).
  rewrite filter_app. f_equal. f_equal. apply filter_keep_all.
  intros y Hy ->. apply (proj1 (elem_of_first_seen _ _)) in Hy.
  apply (Hdis x); [apply elem_of_cons; by left | done].
Qed.

Lemma first_seen_NoDup (l : list str) : NoDup l -> first_seen l = l.
Proof.
  induction 1 as [|x l Hx _ IH]; [done |]. cbn [first_seen]. rewrite IH.
  f_equal. apply filter_keep_all. by intros y Hy ->.
Qed.

Lemma row_values_inv (r : row) (v : sample) :
  row_values r = Ok v ->
  r !! lit "time" = Some (s_time v) /\
  (exists tok, r !! lit "cpu_pct" = Some tok /\ py_float tok = Ok (s_cpu v)) /\
  (exists tok, r !! lit "mem_pct" = Some tok /\ py_float tok = Ok (s_mem v)).
Proof.
  unfold row_values, getitem.
  destruct (r !! lit "time") as [t|]; cbn [mbind result_bind]; [| done].
  destruct (r !! lit "cpu_pct") as [c|]; cbn [mbind result_bind]; [| done].
  destruct (py_float c) as [x|] eqn:Hc; cbn [mbind result_bind]; [| done].
  destruct (r !! lit "mem_pct") as [m|]; cbn [mbind result_bind]; [| done].
  destruct (py_float m) as [y|] eqn:Hm; cbn [mbind result_bind]; [| done].
  intros [= <-]. cbn. split_and!; [done | by exists c | by exists m].
Qed.

(** X9: the aggregation of two batches of records that share no time stamp
    is the aggregation of the first followed by that of the second. *)
Theorem aggregate_batches (rows1 rows2 : list row) (cd1 cd2 : chart_data) :
  aggregate rows1 = Ok cd1 -> aggregate rows2 = Ok cd2 ->
  (forall t, t ∈ labels cd1 -> t ∉ labels cd2) ->
  aggregate (rows1 ++ rows2)
  = Ok (ChartData (labels cd1 ++ labels cd2)
          (cpu_values cd1 ++ cpu_values cd2)
          (mem_values cd1 ++ mem_values cd2)).
Proof.
  rewrite !aggregate_points, for_each_app.
  destruct (for_each row_values rows1) as [v1|]; cbn [mbind result_bind]; [| done].
  destruct (for_each row_values rows2) as [v2|]; cbn [mbind result_bind]; [| done].
  intros [= <-] [= <-] Hdis. cbn [labels cpu_values mem_values aggregated_points] in *.
  assert (Hdis' : forall t, t ∈ s_time <$> v1 -> t ∉ s_time <$> v2).
  { intros t Ht Ht'. apply (Hdis t); by apply (proj2 (elem_of_first_seen _ _)). }
  f_equal. unfold aggregated_points.
  rewrite fmap_app, (first_seen_app_disjoint _ _ Hdis'), !fmap_app.
  assert (H1 : forall t, t ∈ first_seen (s_time <$> v1) -> group t (v1 ++ v2) = group t v1).
  { intros t Ht. apply (proj1 (elem_of_first_seen _ _)) in Ht. unfold group. rewrite filter_app.
    fold (group t v1) (group t v2).
    by rewrite (group_absent t v2 (Hdis' t Ht)), app_nil_r. }
  assert (H2 : forall t, t ∈ first_seen (s_time <$> v2) -> group t (v1 ++ v2) = group t v2).
  { intros t Ht. apply (proj1 (elem_of_first_seen _ _)) in Ht. unfold group. rewrite filter_app.
    fold (group t v1) (group t v2).
    rewrite (group_absent t v1); [done |]. intros Ht'. by apply (Hdis' t). }
  f_equal; f_equal; apply list_fmap_ext; intros i t Hi;
    apply list_elem_of_lookup_2 in Hi;
    first [by rewrite (H1 t Hi) | by rewrite (H2 t Hi)].
Qed.

Lemma group_cons (t : str) (v : sample) (vs : list sample) :
  group t (v :: vs) = if decide (s_time v = t) then v :: group t vs else group t vs.
Proof. unfold group. by rewrite filter_cons. Qed.

Lemma singleton_groups (vs : list sample) (f : sample -> float) :
  NoDup (s_time <$> vs) ->
  (fun t => fsum (f <$> group t vs)) <$> (s_time <$> vs)
  = (fun v => fadd fzero (f v)) <$> vs.
Proof.
  induction vs as [|v vs IH]; [done |].
  rewrite fmap_cons. intros [Hv Hnd]%NoDup_cons. rewrite !fmap_cons. f_equal.
  - rewrite group_cons, decide_True by done.
    by rewrite (group_absent _ _ Hv).
  - rewrite <- (IH Hnd). apply list_fmap_ext. intros i t Hi.
    apply list_elem_of_lookup_2 in Hi.
    rewrite group_cons, decide_False; [done |]. intros Heq.
    apply Hv. by rewrite Heq.
Qed.

(** X10: when no two records share a time stamp, the labels are the time
    stamps of the records and the series hold, record by record, the floats
    of the cpu and mem tokens (a negative zero becomes [0.0]). *)
Theorem one_record_per_time_stamp (rows : list row) (cd : chart_data) :
  aggregate rows = Ok cd ->
  NoDup (omap (fun r : row => r !! lit "time") rows) ->
  labels cd = omap (fun r : row => r !! lit "time") rows /\
  Forall2 (fun (r : row) x => exists tok y,
             r !! lit "cpu_pct" = Some tok /\ py_float tok = Ok y /\
             x = match y with S754_zero _ => fzero | _ => y end)
    rows (cpu_values cd) /\
  Forall2 (fun (r : row) x => exists tok y,
             r !! lit "mem_pct" = Some tok /\ py_float tok = Ok y /\
             x = match y with S754_zero _ => fzero | _ => y end)
    rows (mem_values cd).
Proof.
  rewrite aggregate_points.
  destruct (for_each row_values rows) as [vs|] eqn:Hvs; cbn [mbind result_bind]; [| done].
  intros [= <-]. rewrite (for_each_times rows vs Hvs). intros Hnd.
  cbn [labels cpu_values mem_values aggregated_points].
  rewrite (first_seen_NoDup _ Hnd), !(singleton_groups vs _ Hnd).
  apply for_each_Forall2 in Hvs. split_and!; [done | |].
  - apply Forall2_fmap_r. eapply Forall2_impl; [exact Hvs |].
    intros r v (_ & (tok & Htok & Hf) & _)%row_values_inv.
    exists tok, (s_cpu v). by rewrite fadd_zero_l.
  - apply Forall2_fmap_r. eapply Forall2_impl; [exact Hvs |].
    intros r v (_ & _ & (tok & Htok & Hf))%row_values_inv.
    exists tok, (s_mem v). by rewrite fadd_zero_l.
Qed.

Lemma foldl_fadd_nan (xs : list float) : foldl fadd S754_nan xs = S754_nan.
Proof. induction xs as [|x xs IH]; [done |]. cbn [foldl]. by destruct x. Qed.

Lemma fsum_nan (xs : list float) : S754_nan ∈ xs -> fsum xs = S754_nan.
Proof.
  intros (l1 & l2 & ->)%list_elem_of_split. unfold fsum.
  rewrite foldl_app. cbn [foldl].
  replace (fadd (foldl fadd fzero l1) S754_nan) with S754_nan
    by (by destruct (foldl fadd fzero l1) as [[] | [] | |]).
  apply foldl_fadd_nan.
Qed.

(** X11: a token that float reads as not-a-number, such as nan, is accepted,
    and it turns the sum of its time stamp into not-a-number, which the
    chart data then shows as NaN. *)
Theorem nan_absorbs (rows : list row) (cd : chart_data) (r : row) (t tok : str) :
  aggregate rows = Ok cd -> r ∈ rows ->
  r !! lit "time" = Some t -> r !! lit "cpu_pct" = Some tok ->
  py_float tok = Ok S754_nan ->
  py_float (lit "nan") = Ok S754_nan /\
  exists i, labels cd !! i = Some t /\ cpu_values cd !! i = Some S754_nan /\
            (json_float <$> cpu_values cd) !! i = Some (lit "NaN").
Proof.
  rewrite aggregate_points.
  destruct (for_each row_values rows) as [vs|] eqn:Hvs; cbn [mbind result_bind]; [| done].
  intros [= <-] Hr Ht Htok Hnan. split; [vm_compute; reflexivity |].
  apply for_each_Forall2 in Hvs.
  apply list_elem_of_lookup_1 in Hr as [k Hk].
  destruct (Forall2_lookup_l _ _ _ _ _ Hvs Hk) as (v & Hv & Hrv).
  apply row_values_inv in Hrv as (Ht' & (tok' & Htok' & Hf) & _).
  assert (s_time v = t) as Htv by congruence.
  assert (s_cpu v = S754_nan) as Hcv by congruence.
  assert (Hin : t ∈ first_seen (s_time <$> vs)).
  { apply (proj2 (elem_of_first_seen _ _)), list_elem_of_fmap. exists v.
    split; [done | by eapply list_elem_of_lookup_2]. }
  apply list_elem_of_lookup_1 in Hin as [i Hi]. exists i.
  cbn [labels cpu_values aggregated_points]. split; [done |].
  assert (Hsum : fsum (s_cpu <$> group t vs) = S754_nan).
  { apply fsum_nan. rewrite <- Hcv. apply list_elem_of_fmap_2.
    apply list_elem_of_filter. split; [done | by eapply list_elem_of_lookup_2]. }
  by rewrite !list_lookup_fmap, Hi; cbn; rewrite Hsum.
Qed.

(** ** More on escaping *)

Lemma unescape_entities_other (c : N) (r : str) :
  c <> 38 -> unescape_entities (c :: r) = c :: unescape_entities r.
Proof.
  intros Hc. destruct c as [|p]; [reflexivity |].
  do 6 (destruct p as [p|p|]; try reflexivity).
  all: try (by destruct Hc).
Qed.

Lemma unescape_entity (c : N) (r : str) :
  unescape_entities (entity c ++ r) = c :: unescape_entities r.
Proof.
  unfold entity.
  destruct (N.eqb_spec c 38) as [-> | H1]; [reflexivity |].
  destruct (N.eqb_spec c 60) as [-> | H2]; [reflexivity |].
  destruct (N.eqb_spec c 62) as [-> | H3]; [reflexivity |].
  destruct (N.eqb_spec c 34) as [-> | H4]; [reflexivity |].
  destruct (N.eqb_spec c 39) as [-> | H5]; [reflexivity |].
  by apply unescape_entities_other.
Qed.

(** X12: escaping loses nothing: reading the entities back gives the text
    again, so two texts with the same escaped form are the same. *)
Theorem html_escape_lossless (s : str) :
  unescape_entities (html_escape s) = s /\
  forall s', html_escape s = html_escape s' -> s = s'.
Proof.
  assert (Hback : forall t, unescape_entities (html_escape t) = t).
  { intros t. rewrite html_escape_entities.
    induction t as [|c t IH]; [done |].
    cbn [flat_map]. by rewrite unescape_entity, IH. }
  split; [apply Hback |].
  intros s' Heq. by rewrite <- (Hback s), Heq, Hback.
Qed.

Lemma entity_no_quote (x : N) : Forall (fun c => c <> 34 /\ c <> 39) (entity x).
Proof.
  unfold entity.
  destruct (N.eqb_spec x 38); [compute_done |].
  destruct (N.eqb_spec x 60); [compute_done |].
  destruct (N.eqb_spec x 62); [compute_done |].
  destruct (N.eqb_spec x 34); [compute_done |].
  destruct (N.eqb_spec x 39); [compute_done |].
  by repeat constructor.
Qed.

(** X13: a text without ampersand, angle bracket or quote is left as it is
    by escaping, and an escaped text holds no quote of either kind. *)
Theorem html_escape_plain_text (s : str) :
  (Forall (fun c => c <> 38 /\ c <> 60 /\ c <> 62 /\ c <> 34 /\ c <> 39) s ->
   html_escape s = s) /\
  Forall (fun c => c <> 34 /\ c <> 39) (html_escape s).
Proof.
  rewrite html_escape_entities. split.
  - induction 1 as [|c t (H1 & H2 & H3 & H4 & H5) _ IH]; [done |].
    cbn [flat_map]. rewrite IH. unfold entity.
    apply N.eqb_neq in H1, H2, H3, H4, H5. by rewrite H1, H2, H3, H4, H5.
  - induction s as [|x s IH]; [constructor |].
    cbn [flat_map]. apply Forall_app. split; [apply entity_no_quote | exact IH].
Qed.

(** ** The chart data as text *)

Lemma is_digit_printable (c : N) : is_digit c = true -> printable c.
Proof.
  unfold is_digit, printable. rewrite andb_true_iff, !N.leb_le. lia.
Qed.

Lemma hex_digit_printable (d : N) : d < 16 -> printable (hex_digit d).
Proof.
  intros Hd. unfold hex_digit, printable.
  destruct (N.ltb_spec d 10); lia.
Qed.

Lemma hex4_printable (n : N) : Forall printable (hex4 n).
Proof.
  unfold hex4. repeat constructor; apply hex_digit_printable; by apply N.mod_lt.
Qed.

Lemma printable_check (l : str) :
  forallb (fun c => (32 <=? c) && (c <=? 126)) l = true -> Forall printable l.
Proof.
  intros Hl. apply Forall_forall. intros x Hx%list_elem_of_In.
  rewrite forallb_forall in Hl. specialize (Hl x Hx).
  apply andb_true_iff in Hl as [?%N.leb_le ?%N.leb_le]. by split.
Qed.

Lemma json_char_printable (c : N) : Forall printable (json_char c).
Proof.
  pose proof printable_check as Hp.
  unfold json_char.
  destruct (c =? 34); [by apply Hp |].
  destruct (c =? 92); [by apply Hp |].
  destruct (c =? 10); [by apply Hp |].
  destruct (c =? 13); [by apply Hp |].
  destruct (c =? 9); [by apply Hp |].
  destruct (c =? 8); [by apply Hp |].
  destruct (c =? 12); [by apply Hp |].
  destruct ((32 <=? c) && (c <=? 126)) eqn:Hr.
  { apply andb_true_iff in Hr as [?%N.leb_le ?%N.leb_le]. by repeat constructor. }
  destruct (0x10000 <=? c).
  - rewrite !app_assoc. repeat (apply Forall_app; split);
      first [apply hex4_printable | by apply Hp].
  - repeat (apply Forall_app; split); first [apply hex4_printable | by apply Hp].
Qed.

Lemma json_str_printable (s : str) : Forall printable (json_str s).
Proof.
  unfold json_str. apply Forall_app. split; [by repeat constructor |].
  apply Forall_app. split; [| by repeat constructor].
  induction s as [|c s IH]; [constructor |].
  cbn [flat_map]. apply Forall_app. split; [apply json_char_printable | exact IH].
Qed.

Lemma join_printable (sep : str) (l : list str) :
  Forall printable sep -> Forall (Forall printable) l ->
  Forall printable (join sep l).
Proof.
  intros Hsep. induction 1 as [|x l Hx Hl IH]; [constructor |].
  destruct l as [|y l]; [done |].
  change (join sep (x :: y :: l)) with (x ++ sep ++ join sep (y :: l)).
  by repeat (apply Forall_app; split).
Qed.

Lemma json_list_printable (l : list str) :
  Forall (Forall printable) l -> Forall printable (json_list l).
Proof.
  intros Hl. unfold json_list.
  repeat (apply Forall_app; split); [by repeat constructor | | by repeat constructor].
  apply join_printable; [by repeat constructor | done].
Qed.

(** X14: where the floats are printed with printable ASCII, as Python
    prints them, the chart data is written in printable ASCII whatever the
    time stamps hold: there is no line break, no control character and no
    code point beyond ASCII in it. *)
Theorem json_dumps_printable (cd : chart_data) :
  (forall x, Forall printable (float_repr x)) ->
  Forall printable (json_dumps cd) /\
  (forall s, Forall printable (json_str s)).
Proof.
  intros Hrepr. split; [| apply json_str_printable].
  assert (Hfloat : forall x, Forall printable (json_float x)).
  { intros [| [] | |]; first [apply Hrepr | by repeat constructor]. }
  unfold json_dumps.
  repeat first
    [ apply json_str_printable
    | apply json_list_printable, Forall_fmap, Forall_forall; intros ? _;
      first [apply json_str_printable | apply Hfloat]
    | apply printable_check; reflexivity
    | apply Forall_app; split ].
Qed.

Lemma json_char_plain (c : N) :
  printable c -> c <> 34 -> c <> 92 -> json_char c = [c].
Proof.
  intros [Hlo Hhi] H1 H2. unfold json_char.
  apply N.eqb_neq in H1, H2. rewrite H1, H2.
  rewrite (proj2 (N.eqb_neq c 10)), (proj2 (N.eqb_neq c 13)),
    (proj2 (N.eqb_neq c 9)), (proj2 (N.eqb_neq c 8)),
    (proj2 (N.eqb_neq c 12)) by lia.
  by rewrite (proj2 (N.leb_le 32 c)), (proj2 (N.leb_le c 126)) by lia.
Qed.

(** X15: a time stamp of printable ASCII without double quote and backslash
    is written into the chart data as it is, between double quotes; its
    angle brackets and ampersands are not escaped there. *)
Theorem label_written_verbatim (s : str) :
  Forall (fun c => printable c /\ c <> 34 /\ c <> 92) s ->
  json_str s = dq ++ s ++ dq.
Proof.
  intros Hs. unfold json_str. do 2 f_equal.
  induction Hs as [|c t (Hp & H1 & H2) _ IH]; [done |].
  cbn [flat_map]. by rewrite IH, json_char_plain.
Qed.

(** ** More on the command line *)

Lemma lit_inj (s1 s2 : string) : lit s1 = lit s2 -> s1 = s2.
Proof.
  unfold lit. intros H.
  assert (Hl : list_ascii_of_string s1 = list_ascii_of_string s2).
  { revert H. generalize (list_ascii_of_string s1) (list_ascii_of_string s2).
    induction l as [|a l IH]; intros [|b k]; cbn; try done.
    intros [= Hab Hlk]. f_equal; [| by apply IH].
    by rewrite <- (ascii_N_embedding a), <- (ascii_N_embedding b), Hab. }
  by rewrite <- (string_of_list_ascii_of_string s1),
             <- (string_of_list_ascii_of_string s2), Hl.
Qed.

Lemma str_of_int_inj (n m : Z) : str_of_int n = str_of_int m -> n = m.
Proof. unfold str_of_int. intros H%lit_inj. by apply (inj pretty). Qed.

Lemma str_of_int_not_ALL (n : Z) : str_of_int n <> lit "ALL".
Proof.
  intros H. destruct (Z.lt_ge_cases n 0) as [Hn | Hn].
  - rewrite (str_of_int_negative n Hn) in H. discriminate H.
  - destruct (str_of_int_decimal n Hn) as [Hd _]. rewrite H in Hd.
    apply Forall_cons in Hd as [Hd _]. discriminate Hd.
Qed.

(** X16: the selector of the command line is ALL exactly when no pid is
    given, whatever the pid, and the command line tells the pid, the
    interval and the count: different arguments give different command
    lines. *)
Theorem pidstat_command_inj (pid pid' : option Z) (interval interval' count count' : Z) :
  (pidstat_command pid interval count !! 3%nat = Some (lit "ALL") <-> pid = None) /\
  (pidstat_command pid interval count = pidstat_command pid' interval' count' ->
   pid = pid' /\ interval = interval' /\ count = count').
Proof.
  split.
  - destruct pid as [p|]; cbn; [| done].
    split; [| done]. intros [= H]. by apply str_of_int_not_ALL in H.
  - unfold pidstat_command. intros [= Hpid Hi%str_of_int_inj Hc%str_of_int_inj].
    split; [| done].
    destruct pid as [p|], pid' as [p'|]; try done.
    + by apply str_of_int_inj in Hpid as ->.
    + by apply str_of_int_not_ALL in Hpid.
    + symmetry in Hpid. by apply str_of_int_not_ALL in Hpid.
Qed.

End Runtime.

(** * The theorems at sample inputs *)

Lemma not_marker (l : str) :
  startswith_any (strip l) MARKERS = false ->
  ~ (lit "Linux" `prefix_of` strip l \/ lit "#" `prefix_of` strip l
     \/ lit "Average:" `prefix_of` strip l).
Proof. intros H. rewrite <- startswith_any_markers, H. discriminate. Defined.

Lemma marker_lines_excluded_witness :
  lit "#" `prefix_of` strip sample_header /\
  parse_line [] sample_header = [].
Proof.
  assert (H : lit "#" `prefix_of` strip sample_header)
    by (apply startswith_prefix; reflexivity).
  split; [exact H |].
  apply (marker_lines_excluded sample_header). tauto.
Defined.

Lemma data_line_record_witness :
  (length (split (strip short_line)) < 17)%nat /\
  parse_pidstat_output short_line = [] /\
  (17 <= length (split (strip sample_line_a)))%nat /\
  exists r : row,
    parse_pidstat_output sample_output
    = [r; dict (zip TABLE_COLUMNS (split sample_line_b))] /\
    r !! lit "cpu_pct" = Some (lit "10").
Proof.
  split; [vm_compute; lia |]. split.
  - destruct (data_line_record short_line) as [H _];
      [discriminate | by apply not_marker |].
    destruct H as (_ & _ & H); [vm_compute; lia |].
    apply H. reflexivity.
  - split; [vm_compute; lia |].
    destruct (data_line_record sample_line_a) as [_ H];
      [discriminate | by apply not_marker |].
    destruct H as (r & _ & Hcol & _ & Hr & _); [vm_compute; lia |].
    exists r. split.
    + apply (Hr sample_output [sample_header] [sample_line_b]). reflexivity.
    + rewrite (Hcol 6%nat (lit "cpu_pct") eq_refl). reflexivity.
Defined.

Lemma aggregated_sums_witness :
  let ra := dict (zip TABLE_COLUMNS (split sample_line_a)) in
  let rb := dict (zip TABLE_COLUMNS (split sample_line_b)) in
  aggregate no_digits [ra; rb]
  = Ok (ChartData [lit "1699000000"]
          [S754_finite false 8444249301319680 (-48)]
          [fadd (fadd fzero (S754_finite false 6755399441055744 (-52)))
             (S754_finite false 5629499534213120 (-51))]) /\
  aggregate no_digits (parse_pidstat_output sample_output)
  = Ok (ChartData [lit "1699000000"]
          [S754_finite false 8444249301319680 (-48)]
          [S754_finite false 4503599627370496 (-50)]).
Proof.
  intros ra rb.
  destruct (aggregated_sums no_digits []) as (_ & _ & Hpair & Hsample).
  split; [| exact Hsample].
  apply (Hpair ra rb (lit "1699000000") (lit "1.5") (lit "2.5"));
    first [ vm_compute; reflexivity | reflexivity ].
Defined.

Lemma labels_in_first_seen_order_witness :
  exists cd, aggregate no_digits unsorted_rows = Ok cd /\
             labels cd = [lit "10:00"; lit "09:00"].
Proof.
  assert (H : exists cd, aggregate no_digits unsorted_rows = Ok cd)
    by (vm_compute; eauto).
  destruct H as [cd H]. exists cd. split; [exact H |].
  destruct (labels_in_first_seen_order no_digits unsorted_rows cd H) as (_ & -> & _).
  vm_compute. reflexivity.
Defined.



(** The line of the table for a record with markup in its pid. *)
Example escaped_cell :
  for_each row_cell (parse_pidstat_output markup_line)
  = Ok [lit "<tr><td>1699000000</td><td>&lt;b&gt;&amp;7</td><td>10</td><td>1.5</td></tr>"].
Proof. vm_compute. reflexivity. Qed.

Lemma chart_arrays_same_length_witness :
  exists doc,
    build_html no_digits repr_whole (parse_pidstat_output sample_output)
      sample_output None 1 5 (lit "report") = Ok doc /\
    exists before literal,
      doc = before ++ lit "const data = " ++ literal ++ tpl_close /\
      literal = lit "{" ++ dq ++ lit "labels" ++ dq ++ lit ": [" ++ dq
                ++ lit "1699000000" ++ dq ++ lit "], " ++ dq ++ lit "cpu" ++ dq
                ++ lit ": [30.0], " ++ dq ++ lit "mem" ++ dq ++ lit ": [4.0]}" /\
      read_arrays literal
      = Some [[dq ++ lit "1699000000" ++ dq]; [lit "30.0"]; [lit "4.0"]].
Proof.
  assert (Hb : exists doc,
    build_html no_digits repr_whole (parse_pidstat_output sample_output)
      sample_output None 1 5 (lit "report") = Ok doc)
    by (eexists; apply build_html_Ok; vm_compute; reflexivity).
  destruct Hb as [doc Hb]. exists doc. split; [exact Hb |].
  destruct (chart_arrays_same_length no_digits repr_whole
              (parse_pidstat_output sample_output) sample_output None 1 5
              (lit "report") doc Hb) as (cd & before & Hcd & Hdoc & _ & _ & Hread).
  assert (Hcd' : aggregate no_digits (parse_pidstat_output sample_output)
                 = Ok (ChartData [lit "1699000000"]
                         [S754_finite false 8444249301319680 (-48)]
                         [S754_finite false 4503599627370496 (-50)]))
    by (vm_compute; reflexivity).
  rewrite Hcd' in Hcd. injection Hcd as <-.
  destruct Hread as (ls & cs & ms & Hr & -> & -> & -> & _).
  { repeat constructor. }
  exists before, (json_dumps repr_whole
                    (ChartData [lit "1699000000"]
                       [S754_finite false 8444249301319680 (-48)]
                       [S754_finite false 4503599627370496 (-50)])).
  split_and!; [exact Hdoc | vm_compute; reflexivity |].
  rewrite Hr. vm_compute. reflexivity.
Defined.

(** A label of the chart is written as a JSON string inside the script
    element: its angle brackets stay as they are. *)
Example label_not_escaped :
  json_str (lit "</script>") = dq ++ lit "</script>" ++ dq.
Proof. vm_compute. reflexivity. Qed.

(** The chart data of the sample, as [json.dumps] writes it. *)
Example sample_chart_data :
  json_dumps repr_whole
    (ChartData [lit "1699000000"]
       [float_of_decimal false 30 0] [float_of_decimal false 4 0])
  = lit "{" ++ dq ++ lit "labels" ++ dq ++ lit ": [" ++ dq ++ lit "1699000000"
    ++ dq ++ lit "], " ++ dq ++ lit "cpu" ++ dq ++ lit ": [30.0], " ++ dq
    ++ lit "mem" ++ dq ++ lit ": [4.0]}".
Proof. vm_compute. reflexivity. Qed.

Lemma pair_order_independent_witness :
  let ra := dict (zip TABLE_COLUMNS (split sample_line_a)) in
  let rb := dict (zip TABLE_COLUMNS (split sample_line_b)) in
  parse_pidstat_output sample_output = [ra; rb] /\
  exists cd,
    aggregate no_digits [ra; rb] = Ok cd /\
    aggregate no_digits [rb; ra] = Ok cd.
Proof.
  intros ra rb. split; [reflexivity |].
  assert (H : exists cd, aggregate no_digits [ra; rb] = Ok cd)
    by (vm_compute; eauto).
  destruct H as [cd H]. exists cd. split; [exact H |].
  apply (pair_order_independent no_digits [] [] [] ra rb (lit "1699000000") cd).
  - reflexivity.
  - reflexivity.
  - intros r Hr. destruct (proj1 (elem_of_nil r) Hr).
  - exact H.
Defined.

(** C8 fails for three records: 0.1 + 0.2 + 0.3 and 0.3 + 0.2 + 0.1 differ
    in the last bit. *)
Lemma sums_depend_on_order :
  rows_down = rev rows_up /\
  Forall (fun r : row => r !! lit "time" = Some (lit "1699000000")) rows_up /\
  exists up down,
    aggregate no_digits rows_up = Ok up /\
    aggregate no_digits rows_down = Ok down /\
    cpu_values up = [float_of_decimal false 6000000000000001 (-16)] /\
    cpu_values down = [float_of_decimal false 6 (-1)] /\
    cpu_values up <> cpu_values down.
Proof.
  split; [reflexivity |].
  split; [repeat constructor |].
  eexists _, _. split_and!; [vm_compute; reflexivity .. | ].
  vm_compute. discriminate.
Qed.

Lemma pidstat_command_line_witness :
  pidstat_command (Some 1234%Z) 1 5
  = [lit "pidstat"; lit "-durh"; lit "-p"; lit "1234"; lit "1"; lit "5"] /\
  pidstat_command None 1 5
  = [lit "pidstat"; lit "-durh"; lit "-p"; lit "ALL"; lit "1"; lit "5"] /\
  run_pidstat (world_with 0 sample_output) (Some 1234%Z) 1 5 = Ok sample_output.
Proof.
  split; [vm_compute; reflexivity |]. split; [vm_compute; reflexivity |].
  apply (pidstat_command_line (world_with 0 sample_output) (Some 1234%Z) 1 5).
  reflexivity.
Defined.

Lemma fatal_conditions_witness :
  main no_digits repr_whole default_args (world_with 2 [])
  = (world_with 2 [], Raise (CalledProcessError 2 (pidstat_command None 1 5))) /\
  parse_pidstat_output sample_header = [] /\
  main no_digits repr_whole default_args (world_with 0 sample_header)
  = (world_with 0 sample_header, Raise (SystemExit NO_ROWS)) /\
  main no_digits repr_whole default_args (world_with 0 comma_line)
  = (world_with 0 comma_line, Raise (ValueError (lit "10,00"))).
Proof.
  split_and!.
  - destruct (fatal_conditions no_digits repr_whole default_args (world_with 2 []))
      as (H & _).
    apply (H 2%Z []); [reflexivity | discriminate].
  - vm_compute. reflexivity.
  - destruct (fatal_conditions no_digits repr_whole default_args
                (world_with 0 sample_header)) as (_ & H & _).
    apply (H sample_header); [reflexivity | vm_compute; reflexivity].
  - destruct (fatal_conditions no_digits repr_whole default_args
                (world_with 0 comma_line)) as (_ & _ & _ & H & _).
    apply (H comma_line); [reflexivity | compute_done | vm_compute; reflexivity].
Defined.

(** C2 fails where it says that there are no other fatal conditions: pidstat
    succeeds, a record is parsed, and the run ends with a [ValueError]. *)
Lemma third_fatal_condition :
  let w := world_with 0 comma_line in
  let r := main no_digits repr_whole default_args w in
  subprocess_run w (pidstat_command None 1 5) = Ok (0%Z, comma_line) /\
  parse_pidstat_output comma_line <> [] /\
  r.2 = Raise (ValueError (lit "10,00")) /\
  exit_status r.2 <> 0%Z /\
  files r.1 = ∅.
Proof.
  cbv zeta. split_and!.
  - reflexivity.
  - compute_done.
  - vm_compute. reflexivity.
  - vm_compute. discriminate.
  - reflexivity.
Qed.

Lemma float_conversion_unguarded_witness :
  exists (r : row) (token : str),
    parse_pidstat_output comma_line = [r] /\
    py_float no_digits token = Raise (ValueError token) /\
    main no_digits repr_whole default_args (world_with 0 comma_line)
    = (world_with 0 comma_line, Raise (ValueError token)).
Proof.
  destruct (float_conversion_unguarded no_digits repr_whole) as [_ H].
  destruct (H comma_line) as (r & token & _ & Hr & _ & Hf & _ & Hmain);
    [left; reflexivity |].
  exists r, token. split; [exact Hr |]. split; [exact Hf |].
  apply Hmain. reflexivity.
Defined.

(** A run that succeeds writes the report and prints where it is. *)
Example successful_run :
  let w := world_with 0 sample_output in
  let r := main no_digits repr_whole default_args w in
  r.2 = Ok () /\ exit_status r.2 = 0%Z /\
  build_html no_digits repr_whole (parse_pidstat_output sample_output)
    sample_output None 1 5 (lit "pidstat performance report")
  = Ok (default (files r.1 !!! lit "pidstat_report.html") None) /\
  printed r.1 = [lit "Report written to /work/pidstat_report.html"].
Proof. vm_compute. split_and!; reflexivity. Qed.

(** * The further properties at sample inputs *)

Lemma parse_line_by_line_witness :
  parse_pidstat_output (join nl [sample_header; sample_line_a; sample_line_b])
  = flat_map (parse_line []) [sample_header; sample_line_a; sample_line_b].
Proof.
  apply (parse_line_by_line [sample_header; sample_line_a; sample_line_b]).
  repeat constructor.
Defined.

Lemma parsed_records_shape_witness :
  let r := dict (zip TABLE_COLUMNS (split sample_line_a)) in
  r ∈ parse_pidstat_output sample_output /\
  dom r = list_to_set TABLE_COLUMNS.
Proof.
  intros r.
  assert (Hr : r ∈ parse_pidstat_output sample_output).
  { replace (parse_pidstat_output sample_output)
      with [r; dict (zip TABLE_COLUMNS (split sample_line_b))] by reflexivity.
    apply elem_of_cons. by left. }
  split; [exact Hr |].
  apply (parsed_records_shape sample_output r Hr).
Defined.

Lemma extra_tokens_ignored_witness :
  parse_line [] sample_line_a = parse_line [] (sample_line_a ++ lit " --port 8080").
Proof.
  apply (extra_tokens_ignored sample_line_a (sample_line_a ++ lit " --port 8080"));
    [compute_done | compute_done | vm_compute; reflexivity].
Defined.

Lemma no_record_iff_witness :
  parse_pidstat_output (sample_header ++ nl ++ short_line) = [].
Proof.
  apply (no_record_iff (sample_header ++ nl ++ short_line)).
  replace (splitlines (sample_header ++ nl ++ short_line))
    with [sample_header; short_line] by (vm_compute; reflexivity).
  constructor; [| constructor; [| constructor]].
  - right. right. left. apply startswith_prefix. reflexivity.
  - do 4 right. vm_compute. lia.
Defined.

Lemma build_html_succeeds_iff_witness :
  exists doc,
    build_html no_digits repr_whole (parse_pidstat_output sample_output)
      sample_output None 1 5 (lit "report") = Ok doc.
Proof.
  apply (build_html_succeeds_iff no_digits repr_whole
           (parse_pidstat_output sample_output) sample_output None 1 5 (lit "report")).
  replace (parse_pidstat_output sample_output)
    with [dict (zip TABLE_COLUMNS (split sample_line_a));
          dict (zip TABLE_COLUMNS (split sample_line_b))] by reflexivity.
  repeat constructor; unfold readable;
    first [ by eexists
          | eexists _, _; split; [reflexivity | vm_compute; reflexivity] ].
Defined.

Lemma parsed_rows_fail_on_numbers_only_witness :
  exists r tok,
    r ∈ parse_pidstat_output comma_line /\
    (r !! lit "cpu_pct" = Some tok \/ r !! lit "mem_pct" = Some tok) /\
    py_float no_digits tok = Raise (ValueError tok).
Proof.
  destruct (parsed_rows_fail_on_numbers_only no_digits repr_whole comma_line
              comma_line None 1 5 (lit "report") (ValueError (lit "10,00")))
    as (r & tok & Hr & Htok & Hf & _); [vm_compute; reflexivity |].
  by exists r, tok.
Defined.


Lemma aggregate_batches_witness :
  exists cd1 cd2,
    aggregate no_digits (parse_pidstat_output sample_output) = Ok cd1 /\
    aggregate no_digits unsorted_rows = Ok cd2 /\
    aggregate no_digits (parse_pidstat_output sample_output ++ unsorted_rows)
    = Ok (ChartData (labels cd1 ++ labels cd2)
            (cpu_values cd1 ++ cpu_values cd2)
            (mem_values cd1 ++ mem_values cd2)).
Proof.
  eexists _, _. split; [vm_compute; reflexivity |].
  split; [vm_compute; reflexivity |].
  apply (aggregate_batches no_digits); [vm_compute; reflexivity .. |].
  cbn [labels]. intros t Ht Ht'.
  apply list_elem_of_singleton in Ht as ->.
  repeat (apply elem_of_cons in Ht' as [Ht' | Ht']; [discriminate Ht' |]).
  by apply elem_of_nil in Ht'.
Defined.

Lemma one_record_per_time_stamp_witness :
  let rows := [dict (zip TABLE_COLUMNS (split (clock_line "10:00" "1")));
               dict (zip TABLE_COLUMNS (split (clock_line "09:00" "1")))] in
  exists cd, aggregate no_digits rows = Ok cd /\
             labels cd = [lit "10:00"; lit "09:00"].
Proof.
  intros rows.
  assert (H : exists cd, aggregate no_digits rows = Ok cd) by (vm_compute; eauto).
  destruct H as [cd H]. exists cd. split; [exact H |].
  destruct (one_record_per_time_stamp no_digits rows cd H) as (-> & _).
  - vm_compute. repeat constructor; rewrite ?elem_of_cons, ?elem_of_nil;
      intuition discriminate.
  - vm_compute. reflexivity.
Defined.

Lemma nan_absorbs_witness :
  let rows := [dict (zip TABLE_COLUMNS (split (tenth_line "1" "0.1")));
               dict (zip TABLE_COLUMNS (split (tenth_line "2" "nan")))] in
  exists cd, aggregate no_digits rows = Ok cd /\ cpu_values cd = [S754_nan].
Proof.
  intros rows.
  assert (H : exists cd, aggregate no_digits rows = Ok cd /\
                         length (cpu_values cd) = 1%nat /\
                         labels cd = [lit "1699000000"])
    by (vm_compute; eauto).
  destruct H as (cd & H & Hlen & Hlab). exists cd. split; [exact H |].
  destruct (nan_absorbs no_digits repr_whole rows cd
              (dict (zip TABLE_COLUMNS (split (tenth_line "2" "nan"))))
              (lit "1699000000") (lit "nan") H) as (_ & i & Hi & Hc & _).
  - apply elem_of_cons. right. apply elem_of_cons. by left.
  - reflexivity.
  - reflexivity.
  - vm_compute. reflexivity.
  - rewrite Hlab in Hi. destruct i as [|i]; [| destruct i; discriminate Hi].
    destruct (cpu_values cd) as [|x [|y l]]; try discriminate Hlen.
    by injection Hc as ->.
Defined.

Lemma html_escape_plain_text_witness : html_escape (lit "10.00") = lit "10.00".
Proof.
  apply (html_escape_plain_text (lit "10.00")).
  repeat constructor; discriminate.
Defined.

(** The stand-in prints floats with printable ASCII. *)
Lemma repr_whole_printable (x : float) : Forall printable (repr_whole x).
Proof.
  assert (Hint : forall v, (0 <= v)%Z -> Forall printable (str_of_int v)).
  { intros v Hv. destruct (str_of_int_decimal v Hv) as [Hd _].
    eapply Forall_impl; [exact Hd |]. apply is_digit_printable. }
  assert (Hout : forall (s : bool) v, (0 <= v)%Z ->
    Forall printable (if (v <? 10 ^ 16)%Z
                      then (if s then lit "-" else []) ++ str_of_int v ++ lit ".0"
                      else [])).
  { intros s v Hv. destruct (v <? 10 ^ 16)%Z; [| constructor].
    repeat (apply Forall_app; split); [| by apply Hint | by apply printable_check].
    destruct s; [by apply printable_check | constructor]. }
  destruct x as [s | s | | s m e]; cbn [repr_whole]; try constructor.
  - apply Forall_app. split; [| by apply printable_check].
    destruct s; [by apply printable_check | constructor].
  - destruct (0 <=? e)%Z eqn:He.
    + apply Hout. apply Z.leb_le in He.
      apply Z.mul_nonneg_nonneg; [lia | by apply Z.pow_nonneg].
    + destruct (Z.pos m mod 2 ^ (- e) =? 0)%Z; [| constructor].
      apply Hout. apply Z.div_pos; [lia |]. apply Z.pow_pos_nonneg; [lia |].
      apply Z.leb_gt in He. lia.
Qed.

Lemma json_dumps_printable_witness :
  Forall printable
    (json_dumps repr_whole
       (ChartData [lit "1699000000"]
          [float_of_decimal false 30 0] [float_of_decimal false 4 0])).
Proof.
  apply (json_dumps_printable repr_whole). apply repr_whole_printable.
Defined.

Lemma label_written_verbatim_witness :
  json_str (lit "<b>&") = dq ++ lit "<b>&" ++ dq.
Proof.
  apply (label_written_verbatim (lit "<b>&")).
  repeat constructor; first [discriminate | (intros H; discriminate H)].
Defined.

Lemma html_escape_lossless_witness :
  html_escape (lit "<b>&7") = html_escape (lit "<b>&7") /\
  unescape_entities (html_escape (lit "<b>&7")) = lit "<b>&7".
Proof.
  split; [reflexivity |].
  exact (proj1 (html_escape_lossless (lit "<b>&7"))).
Defined.

Lemma pidstat_command_inj_witness :
  pidstat_command None 1 5 !! 3%nat = Some (lit "ALL") /\
  (None : option Z) = None /\ 1%Z = 1%Z /\ 5%Z = 5%Z.
Proof.
  split.
  - apply (proj1 (pidstat_command_inj None None 1 1 5 5)). reflexivity.
  - apply (proj2 (pidstat_command_inj None None 1 1 5 5)). reflexivity.
Defined.
